(** * Driving an EV3 tank by the infrared beacon

    A shallow embedding of the two EV3 programs of the repository,

      - official_models/ev3/home/ev3rstorm/main.py
      - official_models/ev3/home/gripp3r/main.py

    and the properties of their shared behaviour: reading the buttons
    held on the remote beacon and turning them into one command for the
    driving base.

    Numbers are Python integers (the programs pass 100, 300 and 90), so
    speeds and turn rates are [Z].  A Python [set] of buttons is a
    [gset Button].  Methods run in a small state-and-exception monad
    over the object they are called on and the hardware around it. *)

From stdpp Require Import base option list sets gmap strings.
From Stdlib Require Import ZArith.

Open Scope Z_scope.

(** ** Values of [pybricks.parameters] the programs name *)

Inductive Button := LEFT_UP | LEFT_DOWN | RIGHT_UP | RIGHT_DOWN.

Inductive Port := A | B | C | D | S1 | S2 | S3 | S4.

Inductive Direction := CLOCKWISE | COUNTERCLOCKWISE.

#[global] Instance Button_eq_dec : EqDecision Button.
Proof. solve_decision. Defined.

#[global] Instance Port_eq_dec : EqDecision Port.
Proof. solve_decision. Defined.

#[global] Instance Direction_eq_dec : EqDecision Direction.
Proof. solve_decision. Defined.

Definition Button_index (b : Button) : nat :=
  match b with
  | LEFT_UP => 0 | LEFT_DOWN => 1 | RIGHT_UP => 2 | RIGHT_DOWN => 3
  end%nat.

Definition Button_at (n : nat) : option Button :=
  match n with
  | 0 => Some LEFT_UP | 1 => Some LEFT_DOWN
  | 2 => Some RIGHT_UP | 3 => Some RIGHT_DOWN
  | _ => None
  end%nat.

#[global] Instance Button_countable : Countable Button.
Proof.
  refine (inj_countable Button_index Button_at _).
  intros []; reflexivity.
Defined.

(** ** Devices

    A device object is identified by how it was constructed.  What the
    hardware does with it is kept in the [World] below. *)

Record Motor := mkMotor {
  motor_port : Port;
  positive_direction : Direction
}.

Record DriveBase := mkDriveBase {
  left_motor : Motor;
  right_motor : Motor;
  wheel_diameter : Z;
  axle_track : Z
}.

Record InfraredSensor := mkInfraredSensor { ir_port : Port }.
Record TouchSensor := mkTouchSensor { touch_port : Port }.
Record ColorSensor := mkColorSensor { color_port : Port }.

(** The two calls the programs make on a [DriveBase]. *)
Inductive DriveCall :=
  | drive (speed turn_rate : Z)
  | stop.

#[global] Instance DriveCall_eq_dec : EqDecision DriveCall.
Proof. solve_decision. Defined.

(** ** Exceptions *)

Inductive TypeErrorReason :=
  | TooManyPositional
  | UnexpectedKeyword (name : string)
  | MultipleValues (name : string)
  | MissingArgument (name : string)
  | BadArgumentType (name : string).

Inductive Exception :=
  | TypeError (why : TypeErrorReason).

Inductive Res (X : Type) :=
  | Ok (x : X)
  | Raise (e : Exception).
Arguments Ok {X} x.
Arguments Raise {X} e.

#[global] Instance Res_ret : MRet Res := λ _ x, Ok x.
#[global] Instance Res_bind : MBind Res := λ _ _ k m,
  match m with
  | Ok x => k x
  | Raise e => Raise e
  end.

(** ** The world a method runs in

    [self] is the object the method is called on.  [beacon n p c] is
    the list of buttons the sensor on port [p] reports for channel [c]
    at the [n]-th poll, [polls] counts the polls made so far, and
    [issued] is the trace of calls received by driving bases, oldest
    first. *)

Record World (Self : Type) := mkWorld {
  self : Self;
  beacon : nat → Port → Z → list Button;
  polls : nat;
  issued : list (DriveBase * DriveCall)
}.
Arguments mkWorld {Self} _ _ _ _.
Arguments self {Self} _.
Arguments beacon {Self} _ _ _ _.
Arguments polls {Self} _.
Arguments issued {Self} _.

Definition Py (Self X : Type) : Type := World Self → Res X * World Self.

#[global] Instance Py_ret {Self} : MRet (Py Self) := λ _ x w, (Ok x, w).
#[global] Instance Py_bind {Self} : MBind (Py Self) := λ _ _ k m w,
  match m w with
  | (Ok x, w') => k x w'
  | (Raise e, w') => (Raise e, w')
  end.

Section Primitives.
Context {Self : Type}.

(** [self.attr] *)
Definition getattr {X} (attr : Self → X) : Py Self X :=
  λ w, (Ok (attr (self w)), w).

(** Modelled from the spec: the [BeaconReader] and [Drivebase]
    interfaces of section 6, for the methods of [pybricks] the programs
    call ([pybricks] is a library outside the repository).  Reading the
    buttons returns what the beacon holds at this poll; a call on a
    driving base is recorded in the trace; neither raises. *)

(** [sensor.buttons(channel=channel)] *)
Definition InfraredSensor_buttons (sensor : InfraredSensor) (channel : Z)
  : Py Self (list Button) :=
  λ w, (Ok (beacon w (polls w) (ir_port sensor) channel),
        mkWorld (self w) (beacon w) (S (polls w)) (issued w)).

Definition send (d : DriveBase) (c : DriveCall) : Py Self unit :=
  λ w, (Ok tt, mkWorld (self w) (beacon w) (polls w) (issued w ++ [(d, c)])).

(** [d.drive(speed=speed, turn_rate=turn_rate)] *)
Definition DriveBase_drive (d : DriveBase) (speed turn_rate : Z) : Py Self unit :=
  send d (drive speed turn_rate).

(** [d.stop()] *)
Definition DriveBase_stop (d : DriveBase) : Py Self unit :=
  send d stop.
End Primitives.

(** ** The rest of the brick

    Ev3rstorm also reads a touch sensor and a colour sensor, plays
    sounds, shows an image and turns a third motor.  [touch n p] and
    [ambient n p] are what the touch sensor and the colour sensor on
    port [p] report at their [n]-th poll; [performed] is the trace of
    what the speaker, the screen and single motors were asked to do,
    oldest first. *)

Inductive SoundFile := UP | DOWN | LAUGHING_1 | LAUGHING_2.

Inductive ImageFile := TARGET.

Inductive Stop := COAST | BRAKE | HOLD.

Inductive Action :=
  | play_file (file : SoundFile)
  | run_angle (motor : Motor) (speed rotation_angle : Z) (then_ : Stop) (wait : bool)
  | load_image (image : ImageFile).

Record Machine (Self : Type) := mkMachine {
  driving : World Self;
  touch : nat → Port → bool;
  touch_polls : nat;
  ambient : nat → Port → Z;
  ambient_polls : nat;
  performed : list Action
}.
Arguments mkMachine {Self} _ _ _ _ _ _.
Arguments driving {Self} _.
Arguments touch {Self} _ _ _.
Arguments touch_polls {Self} _.
Arguments ambient {Self} _ _ _.
Arguments ambient_polls {Self} _.
Arguments performed {Self} _.

Definition Run (Self X : Type) : Type := Machine Self → Res X * Machine Self.

#[global] Instance Run_ret {Self} : MRet (Run Self) := λ _ x m, (Ok x, m).
#[global] Instance Run_bind {Self} : MBind (Run Self) := λ _ _ k c m,
  match c m with
  | (Ok x, m') => k x m'
  | (Raise e, m') => (Raise e, m')
  end.

Section MachinePrimitives.
Context {Self : Type}.

(** A method that only needs the driving part of the machine. *)
Definition lift {X} (c : Py Self X) : Run Self X :=
  λ m, let (r, w) := c (driving m) in
       (r, mkMachine w (touch m) (touch_polls m)
                     (ambient m) (ambient_polls m) (performed m)).

(** Modelled from the spec: section 1 treats the sensors, the sounds,
    the images and the single motor as external input and output
    ([pybricks], a library outside the repository).  A read returns
    what the sensor reports at this poll; an output is recorded in the
    trace; neither raises. *)

(** [sensor.pressed()] *)
Definition TouchSensor_pressed (sensor : TouchSensor) : Run Self bool :=
  λ m, (Ok (touch m (touch_polls m) (touch_port sensor)),
        mkMachine (driving m) (touch m) (S (touch_polls m))
                  (ambient m) (ambient_polls m) (performed m)).

(** [sensor.ambient()] *)
Definition ColorSensor_ambient (sensor : ColorSensor) : Run Self Z :=
  λ m, (Ok (ambient m (ambient_polls m) (color_port sensor)),
        mkMachine (driving m) (touch m) (touch_polls m)
                  (ambient m) (S (ambient_polls m)) (performed m)).

Definition perform (a : Action) : Run Self unit :=
  λ m, (Ok tt,
        mkMachine (driving m) (touch m) (touch_polls m)
                  (ambient m) (ambient_polls m) (performed m ++ [a])).

(** [self.speaker.play_file(file=file)] *)
Definition Speaker_play_file (file : SoundFile) : Run Self unit :=
  perform (play_file file).

(** [motor.run_angle(speed=, rotation_angle=, then=, wait=)] *)
Definition Motor_run_angle (motor : Motor) (speed rotation_angle : Z)
    (then_ : Stop) (wait : bool) : Run Self unit :=
  perform (run_angle motor speed rotation_angle then_ wait).

(** [self.screen.load_image(image)] *)
Definition Screen_load_image (image : ImageFile) : Run Self unit :=
  perform (load_image image).
End MachinePrimitives.

(** ** Calling a Python function

    A call supplies positional and keyword arguments; the function's
    parameters are filled from them the way Python does it: positional
    arguments in order, then each keyword argument by name, then the
    defaults.  Every failure is a [TypeError]. *)

Inductive Value :=
  | VInstance                (* the object under construction, [self] *)
  | VInt (n : Z)
  | VPort (p : Port).

Record Param := mkParam {
  name : string;
  default : option Value
}.

Definition required (n : string) : Param := mkParam n None.
Definition optional (n : string) (v : Value) : Param := mkParam n (Some v).

Definition Slots : Type := list (Param * option Value).

Fixpoint bind_positional (params : list Param) (args : list Value) : Res Slots :=
  match params, args with
  | _, [] => Ok (map (λ p, (p, None)) params)
  | [], _ :: _ => Raise (TypeError TooManyPositional)
  | p :: params, v :: args =>
      slots ← bind_positional params args;
      Ok ((p, Some v) :: slots)
  end.

Fixpoint bind_keyword (slots : Slots) (k : string) (v : Value) : Res Slots :=
  match slots with
  | [] => Raise (TypeError (UnexpectedKeyword k))
  | (p, bound) :: slots =>
      if decide (name p = k) then
        match bound with
        | Some _ => Raise (TypeError (MultipleValues k))
        | None => Ok ((p, Some v) :: slots)
        end
      else
        slots' ← bind_keyword slots k v;
        Ok ((p, bound) :: slots')
  end.

Fixpoint bind_keywords (slots : Slots) (kwargs : list (string * Value)) : Res Slots :=
  match kwargs with
  | [] => Ok slots
  | (k, v) :: kwargs =>
      slots' ← bind_keyword slots k v;
      bind_keywords slots' kwargs
  end.

Fixpoint fill_defaults (slots : Slots) : Res (list (string * Value)) :=
  match slots with
  | [] => Ok []
  | (p, bound) :: slots =>
      v ← match bound, default p with
          | Some v, _ => Ok v
          | None, Some v => Ok v
          | None, None => Raise (TypeError (MissingArgument (name p)))
          end;
      rest ← fill_defaults slots;
      Ok ((name p, v) :: rest)
  end.

Definition bind_arguments (params : list Param)
    (args : list Value) (kwargs : list (string * Value))
  : Res (list (string * Value)) :=
  slots ← bind_positional params args;
  slots ← bind_keywords slots kwargs;
  fill_defaults slots.

(** A function takes the raw arguments of a call; a bound method
    ([obj.f(...)], [super().f(...)]) passes the object first. *)
Definition Callable (X : Type) : Type :=
  list Value → list (string * Value) → Res X.

Definition bound_method {X} (f : Callable X) : Callable X :=
  λ args kwargs, f (VInstance :: args) kwargs.

Fixpoint argument (n : string) (bound : list (string * Value)) : Res Value :=
  match bound with
  | [] => Raise (TypeError (MissingArgument n))
  | (k, v) :: bound => if decide (k = n) then Ok v else argument n bound
  end.

(** Arguments are used at the types the source annotates them with. *)
Definition int_argument (n : string) (bound : list (string * Value)) : Res Z :=
  v ← argument n bound;
  match v with
  | VInt z => Ok z
  | _ => Raise (TypeError (BadArgumentType n))
  end.

Definition port_argument (n : string) (bound : list (string * Value)) : Res Port :=
  v ← argument n bound;
  match v with
  | VPort p => Ok p
  | _ => Raise (TypeError (BadArgumentType n))
  end.

(** ** ev3rstorm/main.py *)

Module ev3rstorm.

(** The attributes [IRBeaconDriverMixin.__init__] sets. *)
Record IRBeaconDriverMixin := mkIRBeaconDriverMixin {
  driver : DriveBase;
  ir_sensor : InfraredSensor;
  ir_beacon_channel : Z
}.

(** A class that lists the mixin among its bases has these attributes. *)
Class Mixes (Self : Type) := mixin : Self → IRBeaconDriverMixin.

Definition IRBeaconDriverMixin__init__ : Callable IRBeaconDriverMixin :=
  λ args kwargs,
    a ← bind_arguments
          [ required "self";
            required "wheel_diameter"; required "axle_track";
            optional "left_motor_port" (VPort B);
            optional "right_motor_port" (VPort C);
            optional "ir_sensor_port" (VPort S4);
            optional "ir_beacon_channel" (VInt 1) ]
          args kwargs;
    wheel_diameter ← int_argument "wheel_diameter" a;
    axle_track ← int_argument "axle_track" a;
    left_motor_port ← port_argument "left_motor_port" a;
    right_motor_port ← port_argument "right_motor_port" a;
    ir_sensor_port ← port_argument "ir_sensor_port" a;
    ir_beacon_channel ← int_argument "ir_beacon_channel" a;
    Ok {| driver := mkDriveBase (mkMotor left_motor_port CLOCKWISE)
                                (mkMotor right_motor_port CLOCKWISE)
                                wheel_diameter axle_track;
          ir_sensor := mkInfraredSensor ir_sensor_port;
          ir_beacon_channel := ir_beacon_channel |}.

Section Mixin.
Context `{Mixes Self}.

Definition drive_by_ir_beacon (speed turn_rate : Z) : Py Self unit :=
  sensor ← getattr (ir_sensor ∘ mixin);
  channel ← getattr (ir_beacon_channel ∘ mixin);
  buttons ← InfraredSensor_buttons sensor channel;
  let ir_beacon_button_pressed : gset Button := list_to_set buttons in
  (* forward *)
  if decide (ir_beacon_button_pressed = {[LEFT_UP; RIGHT_UP]}) then
    d ← getattr (driver ∘ mixin);
    DriveBase_drive d speed 0
  (* backward *)
  else if decide (ir_beacon_button_pressed = {[LEFT_DOWN; RIGHT_DOWN]}) then
    d ← getattr (driver ∘ mixin);
    DriveBase_drive d (- speed) 0
  (* turn left on the spot *)
  else if decide (ir_beacon_button_pressed = {[LEFT_UP; RIGHT_DOWN]}) then
    d ← getattr (driver ∘ mixin);
    DriveBase_drive d 0 (- turn_rate)
  (* turn right on the spot *)
  else if decide (ir_beacon_button_pressed = {[RIGHT_UP; LEFT_DOWN]}) then
    d ← getattr (driver ∘ mixin);
    DriveBase_drive d 0 turn_rate
  (* turn left forward *)
  else if decide (ir_beacon_button_pressed = {[LEFT_UP]}) then
    d ← getattr (driver ∘ mixin);
    DriveBase_drive d speed (- turn_rate)
  (* turn right forward *)
  else if decide (ir_beacon_button_pressed = {[RIGHT_UP]}) then
    d ← getattr (driver ∘ mixin);
    DriveBase_drive d speed turn_rate
  (* turn left backward *)
  else if decide (ir_beacon_button_pressed = {[LEFT_DOWN]}) then
    d ← getattr (driver ∘ mixin);
    DriveBase_drive d (- speed) turn_rate
  (* turn right backward *)
  else if decide (ir_beacon_button_pressed = {[RIGHT_DOWN]}) then
    d ← getattr (driver ∘ mixin);
    DriveBase_drive d (- speed) (- turn_rate)
  (* otherwise stop *)
  else
    d ← getattr (driver ∘ mixin);
    DriveBase_stop d.
End Mixin.

Definition WHEEL_DIAMETER : Z := 26.
Definition AXLE_TRACK : Z := 102.

Record Ev3rstorm := mkEv3rstorm {
  base : IRBeaconDriverMixin;
  bazooka_blast_motor : Motor;
  touch_sensor : TouchSensor;
  color_sensor : ColorSensor
}.

#[global] Instance Ev3rstorm_mixes : Mixes Ev3rstorm := base.

Definition Ev3rstorm__init__ : Callable Ev3rstorm :=
  λ args kwargs,
    a ← bind_arguments
          [ required "self";
            optional "left_leg_motor_port" (VPort B);
            optional "right_leg_motor_port" (VPort C);
            optional "bazooka_blast_motor_port" (VPort A);
            optional "touch_sensor_port" (VPort S1);
            optional "color_sensor_port" (VPort S3);
            optional "ir_sensor_port" (VPort S4);
            optional "ir_beacon_channel" (VInt 1) ]
          args kwargs;
    self ← argument "self" a;
    left_leg_motor_port ← argument "left_leg_motor_port" a;
    right_leg_motor_port ← argument "right_leg_motor_port" a;
    ir_sensor_port ← argument "ir_sensor_port" a;
    ir_beacon_channel ← argument "ir_beacon_channel" a;
    m ← IRBeaconDriverMixin__init__
          [ self ]
          [ ("wheel_diameter", VInt WHEEL_DIAMETER);
            ("axle_track", VInt AXLE_TRACK);
            ("left_motor_port", left_leg_motor_port);
            ("right_motor_port", right_leg_motor_port);
            ("ir_sensor_port", ir_sensor_port);
            ("ir_beacon_channel", ir_beacon_channel) ];
    bazooka_blast_motor_port ← port_argument "bazooka_blast_motor_port" a;
    touch_sensor_port ← port_argument "touch_sensor_port" a;
    color_sensor_port ← port_argument "color_sensor_port" a;
    Ok {| base := m;
          bazooka_blast_motor := mkMotor bazooka_blast_motor_port CLOCKWISE;
          touch_sensor := mkTouchSensor touch_sensor_port;
          color_sensor := mkColorSensor color_sensor_port |}.

(** [Ev3rstorm(...)] *)
Definition new : Callable Ev3rstorm := bound_method Ev3rstorm__init__.

Definition blast_bazooka_if_touched : Run Ev3rstorm unit :=
  let MEDIUM_MOTOR_N_ROTATIONS_PER_BLAST := 3 in
  let MEDIUM_MOTOR_ROTATIONAL_DEGREES_PER_BLAST :=
    MEDIUM_MOTOR_N_ROTATIONS_PER_BLAST * 360 in
  sensor ← lift (getattr touch_sensor);
  pressed ← TouchSensor_pressed sensor;
  if (pressed : bool) then
    sensor ← lift (getattr color_sensor);
    light ← ColorSensor_ambient sensor;
    if decide (light < 15) then
      _ ← Speaker_play_file UP;
      motor ← lift (getattr bazooka_blast_motor);
      _ ← Motor_run_angle motor
            (2 * MEDIUM_MOTOR_ROTATIONAL_DEGREES_PER_BLAST)
            (- MEDIUM_MOTOR_ROTATIONAL_DEGREES_PER_BLAST)
            HOLD true;
      Speaker_play_file LAUGHING_1
    else
      _ ← Speaker_play_file DOWN;
      motor ← lift (getattr bazooka_blast_motor);
      _ ← Motor_run_angle motor
            (2 * MEDIUM_MOTOR_ROTATIONAL_DEGREES_PER_BLAST)
            MEDIUM_MOTOR_ROTATIONAL_DEGREES_PER_BLAST
            HOLD true;
      Speaker_play_file LAUGHING_2
  else
    mret tt.

(** [while True: self.drive_by_ir_beacon(); self.blast_bazooka_if_touched()],
    run for at most [fuel] rounds; [drive_by_ir_beacon()] takes its
    defaults, speed 100 and turn rate 90. *)
Fixpoint main_loop (fuel : nat) : Run Ev3rstorm unit :=
  match fuel with
  | O => mret tt
  | S fuel =>
      _ ← lift (drive_by_ir_beacon 100 90);
      _ ← blast_bazooka_if_touched;
      main_loop fuel
  end.

Definition main (fuel : nat) : Run Ev3rstorm unit :=
  _ ← Screen_load_image TARGET;
  main_loop fuel.

(** The [__main__] block on given hardware: the outcome, the calls the
    driving bases received and what else the brick was asked to do. *)
Definition program (fuel : nat)
    (remote : nat → Port → Z → list Button)
    (touch : nat → Port → bool) (ambient : nat → Port → Z)
  : Res unit * list (DriveBase * DriveCall) * list Action :=
  match new [] [] with
  | Raise e => (Raise e, [], [])
  | Ok EV3RSTORM =>
      let (r, m) :=
        main fuel (mkMachine (mkWorld EV3RSTORM remote 0%nat [])
                             touch 0%nat ambient 0%nat []) in
      (r, issued (driving m), performed m)
  end.

End ev3rstorm.

(** ** gripp3r/main.py *)

Module gripp3r.

Record RemoteControlledTank := mkRemoteControlledTank {
  driver : DriveBase;
  ir_sensor : InfraredSensor;
  ir_beacon_channel : Z
}.

Definition RemoteControlledTank__init__ : Callable RemoteControlledTank :=
  λ args kwargs,
    a ← bind_arguments
          [ required "self";
            required "wheel_diameter"; required "axle_track";
            optional "left_motor_port" (VPort B);
            optional "right_motor_port" (VPort C);
            optional "ir_sensor_port" (VPort S4);
            optional "ir_beacon_channel" (VInt 1) ]
          args kwargs;
    wheel_diameter ← int_argument "wheel_diameter" a;
    axle_track ← int_argument "axle_track" a;
    left_motor_port ← port_argument "left_motor_port" a;
    right_motor_port ← port_argument "right_motor_port" a;
    ir_sensor_port ← port_argument "ir_sensor_port" a;
    ir_beacon_channel ← int_argument "ir_beacon_channel" a;
    Ok {| driver := mkDriveBase (mkMotor left_motor_port CLOCKWISE)
                                (mkMotor right_motor_port CLOCKWISE)
                                wheel_diameter axle_track;
          ir_sensor := mkInfraredSensor ir_sensor_port;
          ir_beacon_channel := ir_beacon_channel |}.

Definition drive_by_ir_beacon (speed turn_rate : Z) : Py RemoteControlledTank unit :=
  sensor ← getattr ir_sensor;
  channel ← getattr ir_beacon_channel;
  buttons ← InfraredSensor_buttons sensor channel;
  let ir_beacon_button_pressed : gset Button := list_to_set buttons in
  (* forward *)
  if decide (ir_beacon_button_pressed = {[LEFT_UP; RIGHT_UP]}) then
    d ← getattr driver;
    DriveBase_drive d speed 0
  (* backward *)
  else if decide (ir_beacon_button_pressed = {[LEFT_DOWN; RIGHT_DOWN]}) then
    d ← getattr driver;
    DriveBase_drive d (- speed) 0
  (* turn left on the spot *)
  else if decide (ir_beacon_button_pressed = {[LEFT_UP; RIGHT_DOWN]}) then
    d ← getattr driver;
    DriveBase_drive d 0 (- turn_rate)
  (* turn right on the spot *)
  else if decide (ir_beacon_button_pressed = {[RIGHT_UP; LEFT_DOWN]}) then
    d ← getattr driver;
    DriveBase_drive d 0 turn_rate
  (* turn left forward *)
  else if decide (ir_beacon_button_pressed = {[LEFT_UP]}) then
    d ← getattr driver;
    DriveBase_drive d speed (- turn_rate)
  (* turn right forward *)
  else if decide (ir_beacon_button_pressed = {[RIGHT_UP]}) then
    d ← getattr driver;
    DriveBase_drive d speed turn_rate
  (* turn left backward *)
  else if decide (ir_beacon_button_pressed = {[LEFT_DOWN]}) then
    d ← getattr driver;
    DriveBase_drive d (- speed) turn_rate
  (* turn right backward *)
  else if decide (ir_beacon_button_pressed = {[RIGHT_DOWN]}) then
    d ← getattr driver;
    DriveBase_drive d (- speed) (- turn_rate)
  (* otherwise stop *)
  else
    d ← getattr driver;
    DriveBase_stop d.

Definition WHEEL_DIAMETER : Z := 26.
Definition AXLE_TRACK : Z := 102.

(** [class Gripp3r(RemoteControlledTank, EV3Brick)] adds no attribute of
    its own. *)
Abbreviation Gripp3r := RemoteControlledTank.

Definition Gripp3r__init__params : list Param :=
  [ required "self";
    optional "left_track_motor_port" (VPort B);
    optional "right_track_motor_port" (VPort C);
    optional "ir_sensor_port" (VPort S4);
    optional "ir_beacon_channel" (VInt 1) ].

(** [super().__init__] is [RemoteControlledTank.__init__] bound to the
    instance; the source passes [self] to it once more. *)
Definition Gripp3r__init__ : Callable Gripp3r :=
  λ args kwargs,
    a ← bind_arguments Gripp3r__init__params args kwargs;
    self ← argument "self" a;
    left_track_motor_port ← argument "left_track_motor_port" a;
    right_track_motor_port ← argument "right_track_motor_port" a;
    ir_sensor_port ← argument "ir_sensor_port" a;
    ir_beacon_channel ← argument "ir_beacon_channel" a;
    bound_method RemoteControlledTank__init__
      [ self ]
      [ ("wheel_diameter", VInt WHEEL_DIAMETER);
        ("axle_track", VInt AXLE_TRACK);
        ("left_motor_port", left_track_motor_port);
        ("right_motor_port", right_track_motor_port);
        ("ir_sensor_port", ir_sensor_port);
        ("ir_beacon_channel", ir_beacon_channel) ].

(** [Gripp3r(...)] *)
Definition new : Callable Gripp3r := bound_method Gripp3r__init__.

(** [while True: self.drive_by_ir_beacon(speed=300)], run for at most
    [fuel] rounds. *)
Fixpoint main (fuel : nat) : Py Gripp3r unit :=
  match fuel with
  | O => mret tt
  | S fuel => _ ← drive_by_ir_beacon 300 90; main fuel
  end.

(** The [__main__] block on given hardware: the outcome and the calls
    the driving bases received. *)
Definition program (fuel : nat) (hardware : nat → Port → Z → list Button)
  : Res unit * list (DriveBase * DriveCall) :=
  match new [] [] with
  | Raise e => (Raise e, [])
  | Ok GRIPP3R =>
      let (r, w) := main fuel (mkWorld GRIPP3R hardware 0%nat []) in
      (r, issued w)
  end.

End gripp3r.

(** * The mapping table of the specification *)

(** The eight rows of section 4.1, in the order given there. *)
Definition mapping_table (speed turn_rate : Z) : list (gset Button * DriveCall) :=
  [ ({[LEFT_UP; RIGHT_UP]},     drive speed 0);
    ({[LEFT_DOWN; RIGHT_DOWN]}, drive (- speed) 0);
    ({[LEFT_UP; RIGHT_DOWN]},   drive 0 (- turn_rate));
    ({[RIGHT_UP; LEFT_DOWN]},   drive 0 turn_rate);
    ({[LEFT_UP]},               drive speed (- turn_rate));
    ({[RIGHT_UP]},              drive speed turn_rate);
    ({[LEFT_DOWN]},             drive (- speed) turn_rate);
    ({[RIGHT_DOWN]},            drive (- speed) (- turn_rate)) ].

(** First match wins; the last row of the table is [stop]. *)
Fixpoint first_match (rows : list (gset Button * DriveCall)) (pressed : gset Button)
  : DriveCall :=
  match rows with
  | [] => stop
  | (set, call) :: rows =>
      if decide (pressed = set) then call else first_match rows pressed
  end.

(** The sets of the eight rows; they do not depend on the numbers. *)
Definition listed (pressed : gset Button) : Prop :=
  pressed ∈ (mapping_table 0 0).*1.

(** What the beacon reports to the object of [w] at its next poll, as
    the set the programs build from it. *)
Definition pressed_next {Self} (sensor : Self → InfraredSensor) (channel : Self → Z)
    (w : World Self) : gset Button :=
  list_to_set (beacon w (polls w) (ir_port (sensor (self w))) (channel (self w))).

(** The world after one poll and one call [c] on driving base [d]. *)
Definition after {Self} (w : World Self) (d : DriveBase) (c : DriveCall) : World Self :=
  mkWorld (self w) (beacon w) (S (polls w)) (issued w ++ [(d, c)]).

(** What the beacon reports to the object of each program. *)
Definition ev3rstorm_pressed `{ev3rstorm.Mixes Self} (w : World Self) : gset Button :=
  pressed_next (ev3rstorm.ir_sensor ∘ ev3rstorm.mixin)
               (ev3rstorm.ir_beacon_channel ∘ ev3rstorm.mixin) w.

Definition gripp3r_pressed (w : World gripp3r.RemoteControlledTank) : gset Button :=
  pressed_next gripp3r.ir_sensor gripp3r.ir_beacon_channel w.

(** The sixteen sets of buttons, by the buttons they hold. *)
Definition of_bits (lu ld ru rd : bool) : gset Button :=
  (if lu then {[LEFT_UP]} else ∅) ∪ (if ld then {[LEFT_DOWN]} else ∅) ∪
  (if ru then {[RIGHT_UP]} else ∅) ∪ (if rd then {[RIGHT_DOWN]} else ∅).

(** ** The two symmetries of the remote *)

(** Left and right exchanged. *)
Definition mirror (b : Button) : Button :=
  match b with
  | LEFT_UP => RIGHT_UP | RIGHT_UP => LEFT_UP
  | LEFT_DOWN => RIGHT_DOWN | RIGHT_DOWN => LEFT_DOWN
  end.

(** Up and down exchanged. *)
Definition flip (b : Button) : Button :=
  match b with
  | LEFT_UP => LEFT_DOWN | LEFT_DOWN => LEFT_UP
  | RIGHT_UP => RIGHT_DOWN | RIGHT_DOWN => RIGHT_UP
  end.

(** [call'] has the linear speed of [call] and the opposite turn rate;
    a [stop] goes with a [stop] only. *)
Definition mirrored (call call' : DriveCall) : Prop :=
  match call, call' with
  | drive speed turn_rate, drive speed' turn_rate' =>
      speed' = speed ∧ turn_rate' = - turn_rate
  | stop, stop => True
  | _, _ => False
  end.

(** [call'] has the opposite linear speed and the opposite turn rate of
    [call]; a [stop] goes with a [stop] only. *)
Definition flipped (call call' : DriveCall) : Prop :=
  match call, call' with
  | drive speed turn_rate, drive speed' turn_rate' =>
      speed' = - speed ∧ turn_rate' = - turn_rate
  | stop, stop => True
  | _, _ => False
  end.

(** ** Objects and hardware to run the programs on *)

(** The driving base both programs build by default. *)
Definition WHEELS : DriveBase :=
  mkDriveBase (mkMotor B CLOCKWISE) (mkMotor C CLOCKWISE) 26 102.

(** The object [Ev3rstorm()] builds. *)
Definition EV3RSTORM : ev3rstorm.Ev3rstorm :=
  ev3rstorm.mkEv3rstorm
    (ev3rstorm.mkIRBeaconDriverMixin
       WHEELS
       (mkInfraredSensor S4) 1)
    (mkMotor A CLOCKWISE) (mkTouchSensor S1) (mkColorSensor S3).

(** The object [RemoteControlledTank.__init__] builds for the wheels of
    Gripp3r and its default ports. *)
Definition TANK : gripp3r.RemoteControlledTank :=
  gripp3r.mkRemoteControlledTank
    WHEELS
    (mkInfraredSensor S4) 1.

(** A remote on which the same buttons stay held. *)
Definition held (buttons : list Button) : nat → Port → Z → list Button :=
  λ _ _ _, buttons.

(** ** What the loops and the constructors are compared with *)

(** The calls [n] rounds send to the driving base of the object of [w]:
    one for each poll of the beacon, from the poll [w] is at, decided
    by the table at the given speed and turn rate. *)
Definition beacon_calls {Self} (sensor : Self → InfraredSensor)
    (channel : Self → Z) (driver : Self → DriveBase)
    (speed turn_rate : Z) (w : World Self) (n : nat)
  : list (DriveBase * DriveCall) :=
  (λ k, (driver (self w),
         first_match (mapping_table speed turn_rate)
           (list_to_set (beacon w k (ir_port (sensor (self w)))
                                    (channel (self w))))))
    <$> seq (polls w) n.

(** A call that asks for no more than the given speed and turn rate. *)
Definition within (speed turn_rate : Z) (c : DriveCall) : Prop :=
  match c with
  | stop => True
  | drive v r => Z.abs v ≤ Z.abs speed ∧ Z.abs r ≤ Z.abs turn_rate
  end.

(** One shot of the bazooka at ambient light [light]. *)
Definition volley (motor : Motor) (light : Z) : list Action :=
  if decide (light < 15) then
    [ play_file UP; run_angle motor 2160 (-1080) HOLD true; play_file LAUGHING_1 ]
  else
    [ play_file DOWN; run_angle motor 2160 1080 HOLD true; play_file LAUGHING_2 ].

(** The shots of successive rounds: one for each round in which the
    touch sensor is pressed, each at the next reading of the colour
    sensor, [light k] being the reading at its [k]-th poll. *)
Fixpoint volleys (motor : Motor) (touched : list bool) (light : nat → Z) (k : nat)
  : list Action :=
  match touched with
  | [] => []
  | true :: touched => volley motor (light k) ++ volleys motor touched light (S k)
  | false :: touched => volleys motor touched light k
  end.

(** The attributes of the mixin, as those of the tank. *)
Definition as_tank (m : ev3rstorm.IRBeaconDriverMixin) : gripp3r.RemoteControlledTank :=
  gripp3r.mkRemoteControlledTank
    (ev3rstorm.driver m) (ev3rstorm.ir_sensor m) (ev3rstorm.ir_beacon_channel m).

(** The names of the parameters of [Ev3rstorm.__init__]. *)
Definition Ev3rstorm__init__names : list string :=
  [ "self"; "left_leg_motor_port"; "right_leg_motor_port";
    "bazooka_blast_motor_port"; "touch_sensor_port"; "color_sensor_port";
    "ir_sensor_port"; "ir_beacon_channel" ].

(** What a turn of the bazooka motor always looks like: three full
    rotations, either way, at a speed that takes half a second, held at
    the end and waited for. *)
Definition three_turns (motor : Motor) (a : Action) : Prop :=
  match a with
  | run_angle m speed rotation_angle then_ wait =>
      m = motor ∧ Z.abs rotation_angle = 3 * 360 ∧
      speed = 2 * Z.abs rotation_angle ∧ then_ = HOLD ∧ wait = true
  | play_file _ => True
  | load_image _ => False
  end.

(** Ev3rstorm on a still remote, with the touch sensor and the colour
    sensor reporting the same all the time. *)
Definition STAGE (touched : bool) (light : Z) : Machine ev3rstorm.Ev3rstorm :=
  mkMachine (mkWorld EV3RSTORM (held []) 0 [])
            (λ _ _, touched) 0 (λ _ _, light) 0 [].

(** * Properties *)

(** ** Every set of buttons is one of sixteen *)

Lemma of_bits_surjective (s : gset Button) :
  ∃ lu ld ru rd, s = of_bits lu ld ru rd.
Proof.
  exists (bool_decide (LEFT_UP ∈ s)), (bool_decide (LEFT_DOWN ∈ s)),
         (bool_decide (RIGHT_UP ∈ s)), (bool_decide (RIGHT_DOWN ∈ s)).
  apply set_eq. intros b. unfold of_bits.
  destruct (bool_decide_reflect (LEFT_UP ∈ s)),
           (bool_decide_reflect (LEFT_DOWN ∈ s)),
           (bool_decide_reflect (RIGHT_UP ∈ s)),
           (bool_decide_reflect (RIGHT_DOWN ∈ s));
    destruct b; set_unfold; intuition congruence.
Qed.

(** Case analysis on a set of buttons: the goal is generalised over the
    set and then checked on each of the sixteen. *)
Ltac button_cases s :=
  let lu := fresh "lu" in let ld := fresh "ld" in
  let ru := fresh "ru" in let rd := fresh "rd" in
  let E := fresh "E" in
  destruct (of_bits_surjective s) as (lu & ld & ru & rd & E);
  rewrite E in *; clear E;
  destruct lu, ld, ru, rd.

(** ** One step is one decision of the table *)

Lemma ev3rstorm_run `{ev3rstorm.Mixes Self} (w : World Self) (speed turn_rate : Z) :
  ev3rstorm.drive_by_ir_beacon speed turn_rate w =
  (Ok tt, after w (ev3rstorm.driver (ev3rstorm.mixin (self w)))
                  (first_match (mapping_table speed turn_rate) (ev3rstorm_pressed w))).
Proof.
  unfold ev3rstorm.drive_by_ir_beacon, ev3rstorm_pressed, pressed_next, after.
  unfold mbind, Py_bind, getattr, InfraredSensor_buttons; simpl.
  repeat case_decide; reflexivity.
Qed.
Lemma gripp3r_run (w : World gripp3r.RemoteControlledTank) (speed turn_rate : Z) :
  gripp3r.drive_by_ir_beacon speed turn_rate w =
  (Ok tt, after w (gripp3r.driver (self w))
                  (first_match (mapping_table speed turn_rate) (gripp3r_pressed w))).
Proof.
  unfold gripp3r.drive_by_ir_beacon, gripp3r_pressed, pressed_next, after.
  unfold mbind, Py_bind, getattr, InfraredSensor_buttons; simpl.
  repeat case_decide; reflexivity.
Qed.

(** ** Evaluating the table *)

Lemma first_match_elem rows (pressed : gset Button) call :
  NoDup rows.*1 → (pressed, call) ∈ rows → first_match rows pressed = call.
Proof.
  induction rows as [|[set c] rows IH]; simpl; intros Hnd Hin.
  - by apply elem_of_nil in Hin.
  - apply NoDup_cons in Hnd as [Hfresh Hnd].
    apply elem_of_cons in Hin as [Heq|Hin].
    + injection Heq as -> ->. by rewrite decide_True.
    + case_decide as Hset; [|by apply IH].
      subst set. destruct Hfresh.
      apply list_elem_of_fmap. by exists (pressed, call).
Qed.

Lemma first_match_absent rows (pressed : gset Button) :
  pressed ∉ rows.*1 → first_match rows pressed = stop.
Proof.
  induction rows as [|[set c] rows IH]; simpl; intros Hout; [done|].
  apply not_elem_of_cons in Hout as [Hne Hout].
  rewrite decide_False by done. by apply IH.
Qed.

Lemma first_match_Permutation rows rows' (pressed : gset Button) :
  NoDup rows.*1 → rows' ≡ₚ rows →
  first_match rows' pressed = first_match rows pressed.
Proof.
  intros Hnd Hperm.
  destruct (decide (pressed ∈ rows.*1)) as [Hin|Hout].
  - apply list_elem_of_fmap in Hin as ([set call] & -> & Hin); simpl.
    rewrite (first_match_elem rows set call) by done.
    apply first_match_elem; by rewrite Hperm.
  - rewrite (first_match_absent rows) by done.
    apply first_match_absent. by rewrite Hperm.
Qed.

Lemma mapping_table_keys speed turn_rate :
  (mapping_table speed turn_rate).*1 = (mapping_table 0 0).*1.
Proof. reflexivity. Qed.

Lemma mapping_table_NoDup speed turn_rate :
  NoDup (mapping_table speed turn_rate).*1.
Proof.
  rewrite mapping_table_keys.
  apply (bool_decide_unpack _). vm_compute. exact I.
Qed.

(** Deciding an equation between two given sets of buttons, leaving the
    numbers of the goal alone. *)
Ltac decide_sets :=
  repeat match goal with
  | |- context [decide (?a = ?b)] =>
      let r := eval vm_compute in (bool_decide (a = b)) in
      lazymatch r with
      | true =>
          rewrite (decide_True (P := a = b))
            by (apply (bool_decide_unpack _); vm_compute; exact I)
      | false =>
          rewrite (decide_False (P := a = b))
            by (apply (proj1 (bool_decide_eq_false _)); vm_compute; reflexivity)
      end
  end.

Ltac table_eval := unfold mapping_table, first_match; decide_sets.

Example scenario_forward :
  first_match (mapping_table 100 90) (list_to_set [LEFT_UP; RIGHT_UP]) = drive 100 0.
Proof. table_eval. reflexivity. Qed.

Example Ev3rstorm_new : ev3rstorm.new [] [] = Ok EV3RSTORM.
Proof. reflexivity. Qed.

Example RemoteControlledTank_init :
  gripp3r.RemoteControlledTank__init__
    [VInstance] [("wheel_diameter", VInt 26); ("axle_track", VInt 102)] = Ok TANK.
Proof. reflexivity. Qed.

Lemma first_match_mirror speed turn_rate (pressed : gset Button) :
  mirrored (first_match (mapping_table speed turn_rate) pressed)
           (first_match (mapping_table speed turn_rate) (set_map mirror pressed)).
Proof.
  button_cases pressed; table_eval; simpl; try done; split; lia.
Qed.

Lemma first_match_flip speed turn_rate (pressed : gset Button) :
  flipped (first_match (mapping_table speed turn_rate) pressed)
          (first_match (mapping_table speed turn_rate) (set_map flip pressed)).
Proof.
  button_cases pressed; table_eval; simpl; try done; split; lia.
Qed.

(** ** C1 *)

Section Steps.
Context `{ev3rstorm.Mixes Self}.
Implicit Types (we : World Self) (wg : World gripp3r.RemoteControlledTank).

Local Abbreviation driver1 we := (ev3rstorm.driver (ev3rstorm.mixin (self we))).
Local Abbreviation driver2 wg := (gripp3r.driver (self wg)).

(** C1: when the buttons held are the set of one of the eight rows of
    the table, one step of either program sends the driving base
    exactly the call of that row, at the speed and turn rate given. *)
Theorem listed_buttons_drive we wg speed turn_rate buttons call :
  (buttons, call) ∈ mapping_table speed turn_rate →
  ev3rstorm_pressed we = buttons →
  gripp3r_pressed wg = buttons →
  ev3rstorm.drive_by_ir_beacon speed turn_rate we
    = (Ok tt, after we (driver1 we) call) ∧
  gripp3r.drive_by_ir_beacon speed turn_rate wg
    = (Ok tt, after wg (driver2 wg) call).
Proof.
  intros Hrow E1 E2.
  rewrite ev3rstorm_run, gripp3r_run, E1, E2.
  rewrite (first_match_elem _ buttons call);
    auto using mapping_table_NoDup.
Qed.

(** The rows of the table, one by one. *)
Lemma mapping_table_rows speed turn_rate buttons call :
  (buttons, call) ∈ mapping_table speed turn_rate ↔
    buttons = {[LEFT_UP; RIGHT_UP]} ∧ call = drive speed 0 ∨
    buttons = {[LEFT_DOWN; RIGHT_DOWN]} ∧ call = drive (- speed) 0 ∨
    buttons = {[LEFT_UP; RIGHT_DOWN]} ∧ call = drive 0 (- turn_rate) ∨
    buttons = {[RIGHT_UP; LEFT_DOWN]} ∧ call = drive 0 turn_rate ∨
    buttons = {[LEFT_UP]} ∧ call = drive speed (- turn_rate) ∨
    buttons = {[RIGHT_UP]} ∧ call = drive speed turn_rate ∨
    buttons = {[LEFT_DOWN]} ∧ call = drive (- speed) turn_rate ∨
    buttons = {[RIGHT_DOWN]} ∧ call = drive (- speed) (- turn_rate).
Proof.
  unfold mapping_table. rewrite !elem_of_cons, elem_of_nil.
  split.
  - intros Hin. repeat destruct Hin as [Hin|Hin]; try done;
      injection Hin as -> ->; tauto.
  - intros Hin. repeat destruct Hin as [Hin|Hin];
      destruct Hin as [-> ->]; tauto.
Qed.

(** ** C2 *)

(** The sets outside the table: the empty set, the two buttons of one
    side, and every set of three or four buttons. *)
Lemma unlisted_sets (pressed : gset Button) :
  ¬ listed pressed ↔
    pressed = ∅ ∨ pressed = {[LEFT_UP; LEFT_DOWN]} ∨
    pressed = {[RIGHT_UP; RIGHT_DOWN]} ∨ (3 ≤ size pressed)%nat.
Proof.
  unfold listed.
  button_cases pressed;
    (split;
     [ intros Hout;
       first
         [ destruct Hout; apply (bool_decide_unpack _); vm_compute; exact I
         | left; apply (bool_decide_unpack _); vm_compute; exact I
         | right; left; apply (bool_decide_unpack _); vm_compute; exact I
         | right; right; left; apply (bool_decide_unpack _); vm_compute; exact I
         | right; right; right; apply (bool_decide_unpack _); vm_compute; exact I ]
     | intros Hcase; apply (bool_decide_unpack _);
       first
         [ vm_compute; exact I
         | exfalso;
           destruct Hcase as [Hc|[Hc|[Hc|Hc]]]; revert Hc;
           apply (bool_decide_unpack _); vm_compute; exact I ] ]).
Qed.

(** C2: for a set of buttons that is not in the table (the empty set
    and every set of three or four buttons are such sets) one step
    sends [stop]; and whatever the buttons, the step ends normally,
    without an exception. *)
Theorem unlisted_buttons_stop we wg speed turn_rate :
  ((ev3rstorm.drive_by_ir_beacon speed turn_rate we).1 = Ok tt ∧
   (gripp3r.drive_by_ir_beacon speed turn_rate wg).1 = Ok tt) ∧
  (¬ listed (ev3rstorm_pressed we) →
     ev3rstorm.drive_by_ir_beacon speed turn_rate we
       = (Ok tt, after we (driver1 we) stop)) ∧
  (¬ listed (gripp3r_pressed wg) →
     gripp3r.drive_by_ir_beacon speed turn_rate wg
       = (Ok tt, after wg (driver2 wg) stop)) ∧
  (∀ pressed : gset Button,
     pressed = ∅ ∨ (3 ≤ size pressed)%nat → ¬ listed pressed).
Proof.
  rewrite ev3rstorm_run, gripp3r_run. unfold listed.
  repeat split.
  - intros Hout. rewrite first_match_absent; [done|].
    by rewrite mapping_table_keys.
  - intros Hout. rewrite first_match_absent; [done|].
    by rewrite mapping_table_keys.
  - intros pressed Hcase. apply unlisted_sets. tauto.
Qed.
(** ** C3 *)

(** C3: one step makes exactly one call on the driving base, a [drive]
    or a [stop]: the trace of calls grows by one entry, for the driving
    base of the object, and the step ends normally. *)
Theorem one_call_each_step we wg speed turn_rate :
  (∃ call,
     ev3rstorm.drive_by_ir_beacon speed turn_rate we
       = (Ok tt, after we (driver1 we) call) ∧
     issued (ev3rstorm.drive_by_ir_beacon speed turn_rate we).2
       = issued we ++ [(driver1 we, call)] ∧
     (call = stop ∨ ∃ linear_speed rate, call = drive linear_speed rate)) ∧
  (∃ call,
     gripp3r.drive_by_ir_beacon speed turn_rate wg
       = (Ok tt, after wg (driver2 wg) call) ∧
     issued (gripp3r.drive_by_ir_beacon speed turn_rate wg).2
       = issued wg ++ [(driver2 wg, call)] ∧
     (call = stop ∨ ∃ linear_speed rate, call = drive linear_speed rate)).
Proof.
  rewrite ev3rstorm_run, gripp3r_run. split.
  - exists (first_match (mapping_table speed turn_rate) (ev3rstorm_pressed we)).
    repeat split. destruct (first_match _ _); eauto.
  - exists (first_match (mapping_table speed turn_rate) (gripp3r_pressed wg)).
    repeat split. destruct (first_match _ _); eauto.
Qed.

(** ** C7 *)

Lemma gripp3r_main_frame fuel wg :
  (gripp3r.main fuel wg).1 = Ok tt ∧
  self (gripp3r.main fuel wg).2 = self wg ∧
  beacon (gripp3r.main fuel wg).2 = beacon wg ∧
  polls (gripp3r.main fuel wg).2 = (polls wg + fuel)%nat ∧
  length (issued (gripp3r.main fuel wg).2) = (length (issued wg) + fuel)%nat.
Proof.
  revert wg. induction fuel as [|fuel IH]; intros wg; simpl.
  - repeat split; simpl; first [reflexivity | lia].
  - unfold mbind, Py_bind. rewrite gripp3r_run.
    destruct (IH (after wg (driver2 wg)
                    (first_match (mapping_table 300 90) (gripp3r_pressed wg))))
      as (-> & -> & -> & -> & ->).
    simpl. rewrite length_app. simpl. repeat split; first [reflexivity | lia].
Qed.

(** C7: a step leaves the object as it was: its driving base, its
    sensor, its beacon channel and every other attribute are those of
    before, and so is what the remote reports.  The one effect on the
    driving bases is the call sent to the object's own.  The speed and
    the turn rate are arguments of the call; nothing stores them, and
    any number of rounds of Gripp3r's loop leaves the object unchanged
    as well. *)
Theorem step_keeps_object we wg speed turn_rate :
  (self (ev3rstorm.drive_by_ir_beacon speed turn_rate we).2 = self we ∧
   beacon (ev3rstorm.drive_by_ir_beacon speed turn_rate we).2 = beacon we ∧
   ∃ call, issued (ev3rstorm.drive_by_ir_beacon speed turn_rate we).2
             = issued we ++ [(driver1 we, call)]) ∧
  (self (gripp3r.drive_by_ir_beacon speed turn_rate wg).2 = self wg ∧
   beacon (gripp3r.drive_by_ir_beacon speed turn_rate wg).2 = beacon wg ∧
   ∃ call, issued (gripp3r.drive_by_ir_beacon speed turn_rate wg).2
             = issued wg ++ [(driver2 wg, call)]) ∧
  (∀ fuel, self (gripp3r.main fuel wg).2 = self wg).
Proof.
  rewrite ev3rstorm_run, gripp3r_run. simpl.
  repeat split; eauto. intros fuel. apply gripp3r_main_frame.
Qed.

(** ** C4 *)

(** C4: the call a step sends depends on the buttons held and on the
    speed and turn rate only.  In two worlds that may differ in
    everything else (the object, the calls sent so far, the number of
    polls, what the remote does at other times) the same buttons give
    the same call. *)
Theorem same_buttons_same_call we1 we2 speed turn_rate :
  ev3rstorm_pressed we1 = ev3rstorm_pressed we2 →
  ∃ call,
    ev3rstorm.drive_by_ir_beacon speed turn_rate we1
      = (Ok tt, after we1 (driver1 we1) call) ∧
    ev3rstorm.drive_by_ir_beacon speed turn_rate we2
      = (Ok tt, after we2 (driver1 we2) call).
Proof.
  intros Hsame. rewrite !ev3rstorm_run, Hsame. eauto.
Qed.

(** ** C5 *)

(** C5: with the same buttons held, the step of Ev3rstorm and the step
    of Gripp3r send the same call, for every speed and turn rate. *)
Theorem programs_agree we wg speed turn_rate :
  ev3rstorm_pressed we = gripp3r_pressed wg →
  ∃ call,
    ev3rstorm.drive_by_ir_beacon speed turn_rate we
      = (Ok tt, after we (driver1 we) call) ∧
    gripp3r.drive_by_ir_beacon speed turn_rate wg
      = (Ok tt, after wg (driver2 wg) call).
Proof.
  intros Hsame. rewrite ev3rstorm_run, gripp3r_run, Hsame. eauto.
Qed.

(** ** C6 *)

(** C6: the eight sets of the table are pairwise distinct, so at most
    one row matches any set of buttons, and taking the rows in any
    other order decides the same call as the order of the table, which
    is the call the step sends. *)
Theorem rows_exclusive_any_order rows we speed turn_rate :
  rows ≡ₚ mapping_table speed turn_rate →
  NoDup (mapping_table speed turn_rate).*1 ∧
  (∀ pressed : gset Button,
     length (filter (λ row, row.1 = pressed) (mapping_table speed turn_rate)) ≤ 1)%nat ∧
  (∀ pressed : gset Button,
     first_match rows pressed
       = first_match (mapping_table speed turn_rate) pressed) ∧
  ev3rstorm.drive_by_ir_beacon speed turn_rate we
    = (Ok tt, after we (driver1 we) (first_match rows (ev3rstorm_pressed we))).
Proof.
  intros Hperm.
  pose proof (mapping_table_NoDup speed turn_rate) as Hnd.
  split; [done|]. split; [|split].
  - intros pressed. button_cases pressed; vm_compute; lia.
  - intros pressed. by apply first_match_Permutation.
  - rewrite ev3rstorm_run. f_equal. f_equal. symmetry.
    by apply first_match_Permutation.
Qed.
(** ** C9 and C10 *)

(** C9: exchange left and right in the buttons held, and the call sent
    keeps its linear speed and takes the opposite turn rate; one of the
    two sets gives [stop] exactly when the other does.  This holds for
    the step of Ev3rstorm and for the step of Gripp3r. *)
Theorem mirror_symmetry we we' wg wg' speed turn_rate :
  ev3rstorm_pressed we' = set_map mirror (ev3rstorm_pressed we) →
  gripp3r_pressed wg' = set_map mirror (gripp3r_pressed wg) →
  (∃ call call',
     ev3rstorm.drive_by_ir_beacon speed turn_rate we
       = (Ok tt, after we (driver1 we) call) ∧
     ev3rstorm.drive_by_ir_beacon speed turn_rate we'
       = (Ok tt, after we' (driver1 we') call') ∧
     mirrored call call' ∧ (call = stop ↔ call' = stop)) ∧
  (∃ call call',
     gripp3r.drive_by_ir_beacon speed turn_rate wg
       = (Ok tt, after wg (driver2 wg) call) ∧
     gripp3r.drive_by_ir_beacon speed turn_rate wg'
       = (Ok tt, after wg' (driver2 wg') call') ∧
     mirrored call call' ∧ (call = stop ↔ call' = stop)).
Proof.
  intros E1 E2. rewrite !ev3rstorm_run, !gripp3r_run, E1, E2.
  split; eexists _, _; (split; [reflexivity|]); (split; [reflexivity|]).
  - pose proof (first_match_mirror speed turn_rate (ev3rstorm_pressed we)) as Hm.
    split; [done|]. by destruct (first_match _ _), (first_match _ _).
  - pose proof (first_match_mirror speed turn_rate (gripp3r_pressed wg)) as Hm.
    split; [done|]. by destruct (first_match _ _), (first_match _ _).
Qed.

(** C10: exchange up and down in the buttons held, and the call sent
    takes the opposite linear speed and the opposite turn rate; one of
    the two sets gives [stop] exactly when the other does.  This holds
    for the step of Ev3rstorm and for the step of Gripp3r. *)
Theorem flip_antisymmetry we we' wg wg' speed turn_rate :
  ev3rstorm_pressed we' = set_map flip (ev3rstorm_pressed we) →
  gripp3r_pressed wg' = set_map flip (gripp3r_pressed wg) →
  (∃ call call',
     ev3rstorm.drive_by_ir_beacon speed turn_rate we
       = (Ok tt, after we (driver1 we) call) ∧
     ev3rstorm.drive_by_ir_beacon speed turn_rate we'
       = (Ok tt, after we' (driver1 we') call') ∧
     flipped call call' ∧ (call = stop ↔ call' = stop)) ∧
  (∃ call call',
     gripp3r.drive_by_ir_beacon speed turn_rate wg
       = (Ok tt, after wg (driver2 wg) call) ∧
     gripp3r.drive_by_ir_beacon speed turn_rate wg'
       = (Ok tt, after wg' (driver2 wg') call') ∧
     flipped call call' ∧ (call = stop ↔ call' = stop)).
Proof.
  intros E1 E2. rewrite !ev3rstorm_run, !gripp3r_run, E1, E2.
  split; eexists _, _; (split; [reflexivity|]); (split; [reflexivity|]).
  - pose proof (first_match_flip speed turn_rate (ev3rstorm_pressed we)) as Hm.
    split; [done|]. by destruct (first_match _ _), (first_match _ _).
  - pose proof (first_match_flip speed turn_rate (gripp3r_pressed wg)) as Hm.
    split; [done|]. by destruct (first_match _ _), (first_match _ _).
Qed.
End Steps.

(** ** Runs of the programs on given buttons *)

Lemma listed_buttons_drive_witness :
  ev3rstorm.drive_by_ir_beacon 300 90 (mkWorld EV3RSTORM (held [RIGHT_DOWN]) 0 [])
    = (Ok tt, mkWorld EV3RSTORM (held [RIGHT_DOWN]) 1
                [(WHEELS,
                  drive (-300) (-90))]) ∧
  gripp3r.drive_by_ir_beacon 300 90 (mkWorld TANK (held [RIGHT_DOWN]) 0 [])
    = (Ok tt, mkWorld TANK (held [RIGHT_DOWN]) 1
                [(WHEELS,
                  drive (-300) (-90))]).
Proof.
  refine (listed_buttons_drive
            (mkWorld EV3RSTORM (held [RIGHT_DOWN]) 0 [])
            (mkWorld TANK (held [RIGHT_DOWN]) 0 [])
            300 90 {[RIGHT_DOWN]} (drive (-300) (-90)) _ _ _).
  - apply (bool_decide_unpack _). vm_compute. exact I.
  - apply (bool_decide_unpack _). vm_compute. exact I.
  - apply (bool_decide_unpack _). vm_compute. exact I.
Defined.

Lemma unlisted_buttons_stop_witness :
  ¬ listed (ev3rstorm_pressed
              (mkWorld EV3RSTORM (held [LEFT_UP; LEFT_DOWN; RIGHT_UP]) 0 [])) ∧
  ev3rstorm.drive_by_ir_beacon 100 90
      (mkWorld EV3RSTORM (held [LEFT_UP; LEFT_DOWN; RIGHT_UP]) 0 [])
    = (Ok tt, mkWorld EV3RSTORM (held [LEFT_UP; LEFT_DOWN; RIGHT_UP]) 1
                [(WHEELS,
                  stop)]) ∧
  ¬ listed (gripp3r_pressed (mkWorld TANK (held []) 0 [])) ∧
  gripp3r.drive_by_ir_beacon 300 90 (mkWorld TANK (held []) 0 [])
    = (Ok tt, mkWorld TANK (held []) 1
                [(WHEELS,
                  stop)]).
Proof.
  assert (¬ listed (ev3rstorm_pressed
            (mkWorld EV3RSTORM (held [LEFT_UP; LEFT_DOWN; RIGHT_UP]) 0 []))) as H1
    by (apply (bool_decide_unpack _); vm_compute; exact I).
  assert (¬ listed (gripp3r_pressed (mkWorld TANK (held []) 0 []))) as H2
    by (apply (bool_decide_unpack _); vm_compute; exact I).
  pose proof (unlisted_buttons_stop
                (mkWorld EV3RSTORM (held [LEFT_UP; LEFT_DOWN; RIGHT_UP]) 0 [])
                (mkWorld TANK (held []) 0 []) 100 90) as (_ & S1 & _).
  pose proof (unlisted_buttons_stop
                (mkWorld EV3RSTORM (held [LEFT_UP; LEFT_DOWN; RIGHT_UP]) 0 [])
                (mkWorld TANK (held []) 0 []) 300 90) as (_ & _ & S2 & _).
  exact (conj H1 (conj (S1 H1) (conj H2 (S2 H2)))).
Defined.

Lemma same_buttons_same_call_witness :
  ∃ call,
    ev3rstorm.drive_by_ir_beacon 100 90
        (mkWorld EV3RSTORM (held [LEFT_UP; RIGHT_UP]) 0 [])
      = (Ok tt, after (mkWorld EV3RSTORM (held [LEFT_UP; RIGHT_UP]) 0 [])
                  WHEELS
                  call) ∧
    ev3rstorm.drive_by_ir_beacon 100 90
        (mkWorld EV3RSTORM (held [RIGHT_UP; LEFT_UP; RIGHT_UP]) 7
           [(WHEELS, stop)])
      = (Ok tt, after (mkWorld EV3RSTORM (held [RIGHT_UP; LEFT_UP; RIGHT_UP]) 7
                         [(WHEELS,
                           stop)])
                  WHEELS
                  call).
Proof.
  refine (same_buttons_same_call
            (mkWorld EV3RSTORM (held [LEFT_UP; RIGHT_UP]) 0 [])
            (mkWorld EV3RSTORM (held [RIGHT_UP; LEFT_UP; RIGHT_UP]) 7
               [(WHEELS, stop)])
            100 90 _).
  apply (bool_decide_unpack _). vm_compute. exact I.
Defined.

Lemma programs_agree_witness :
  ∃ call,
    ev3rstorm.drive_by_ir_beacon 300 90 (mkWorld EV3RSTORM (held [LEFT_DOWN]) 0 [])
      = (Ok tt, after (mkWorld EV3RSTORM (held [LEFT_DOWN]) 0 [])
                  WHEELS
                  call) ∧
    gripp3r.drive_by_ir_beacon 300 90 (mkWorld TANK (held [LEFT_DOWN; LEFT_DOWN]) 0 [])
      = (Ok tt, after (mkWorld TANK (held [LEFT_DOWN; LEFT_DOWN]) 0 [])
                  WHEELS
                  call).
Proof.
  refine (programs_agree
            (mkWorld EV3RSTORM (held [LEFT_DOWN]) 0 [])
            (mkWorld TANK (held [LEFT_DOWN; LEFT_DOWN]) 0 [])
            300 90 _).
  apply (bool_decide_unpack _). vm_compute. exact I.
Defined.

Lemma rows_exclusive_any_order_witness :
  ev3rstorm.drive_by_ir_beacon 100 90 (mkWorld EV3RSTORM (held [RIGHT_UP]) 0 [])
    = (Ok tt, after (mkWorld EV3RSTORM (held [RIGHT_UP]) 0 [])
                WHEELS
                (first_match (reverse (mapping_table 100 90)) {[RIGHT_UP]})).
Proof.
  refine (proj2 (proj2 (proj2
    (rows_exclusive_any_order (reverse (mapping_table 100 90))
       (mkWorld EV3RSTORM (held [RIGHT_UP]) 0 []) 100 90 _)))).
  apply reverse_Permutation.
Defined.

Lemma mirror_symmetry_witness :
  (∃ call call',
     ev3rstorm.drive_by_ir_beacon 100 90 (mkWorld EV3RSTORM (held [LEFT_UP]) 0 [])
       = (Ok tt, after (mkWorld EV3RSTORM (held [LEFT_UP]) 0 [])
                   WHEELS
                   call) ∧
     ev3rstorm.drive_by_ir_beacon 100 90 (mkWorld EV3RSTORM (held [RIGHT_UP]) 0 [])
       = (Ok tt, after (mkWorld EV3RSTORM (held [RIGHT_UP]) 0 [])
                   WHEELS
                   call') ∧
     mirrored call call' ∧ (call = stop ↔ call' = stop)) ∧
  (∃ call call',
     gripp3r.drive_by_ir_beacon 100 90
         (mkWorld TANK (held [LEFT_UP; RIGHT_DOWN]) 0 [])
       = (Ok tt, after (mkWorld TANK (held [LEFT_UP; RIGHT_DOWN]) 0 [])
                   WHEELS
                   call) ∧
     gripp3r.drive_by_ir_beacon 100 90
         (mkWorld TANK (held [RIGHT_UP; LEFT_DOWN]) 0 [])
       = (Ok tt, after (mkWorld TANK (held [RIGHT_UP; LEFT_DOWN]) 0 [])
                   WHEELS
                   call') ∧
     mirrored call call' ∧ (call = stop ↔ call' = stop)).
Proof.
  refine (mirror_symmetry
            (mkWorld EV3RSTORM (held [LEFT_UP]) 0 [])
            (mkWorld EV3RSTORM (held [RIGHT_UP]) 0 [])
            (mkWorld TANK (held [LEFT_UP; RIGHT_DOWN]) 0 [])
            (mkWorld TANK (held [RIGHT_UP; LEFT_DOWN]) 0 [])
            100 90 _ _).
  - apply (bool_decide_unpack _). vm_compute. exact I.
  - apply (bool_decide_unpack _). vm_compute. exact I.
Defined.

Lemma flip_antisymmetry_witness :
  (∃ call call',
     ev3rstorm.drive_by_ir_beacon 300 90 (mkWorld EV3RSTORM (held [LEFT_UP]) 0 [])
       = (Ok tt, after (mkWorld EV3RSTORM (held [LEFT_UP]) 0 [])
                   WHEELS
                   call) ∧
     ev3rstorm.drive_by_ir_beacon 300 90 (mkWorld EV3RSTORM (held [LEFT_DOWN]) 0 [])
       = (Ok tt, after (mkWorld EV3RSTORM (held [LEFT_DOWN]) 0 [])
                   WHEELS
                   call') ∧
     flipped call call' ∧ (call = stop ↔ call' = stop)) ∧
  (∃ call call',
     gripp3r.drive_by_ir_beacon 300 90
         (mkWorld TANK (held [LEFT_UP; RIGHT_UP]) 0 [])
       = (Ok tt, after (mkWorld TANK (held [LEFT_UP; RIGHT_UP]) 0 [])
                   WHEELS
                   call) ∧
     gripp3r.drive_by_ir_beacon 300 90
         (mkWorld TANK (held [LEFT_DOWN; RIGHT_DOWN]) 0 [])
       = (Ok tt, after (mkWorld TANK (held [LEFT_DOWN; RIGHT_DOWN]) 0 [])
                   WHEELS
                   call') ∧
     flipped call call' ∧ (call = stop ↔ call' = stop)).
Proof.
  refine (flip_antisymmetry
            (mkWorld EV3RSTORM (held [LEFT_UP]) 0 [])
            (mkWorld EV3RSTORM (held [LEFT_DOWN]) 0 [])
            (mkWorld TANK (held [LEFT_UP; RIGHT_UP]) 0 [])
            (mkWorld TANK (held [LEFT_DOWN; RIGHT_DOWN]) 0 [])
            300 90 _ _).
  - apply (bool_decide_unpack _). vm_compute. exact I.
  - apply (bool_decide_unpack _). vm_compute. exact I.
Defined.

(** ** C8: constructing a Gripp3r *)

Lemma Res_bind_Ok {X Y} (m : Res X) (k : X → Res Y) (y : Y) :
  m ≫= k = Ok y ↔ ∃ x, m = Ok x ∧ k x = Ok y.
Proof.
  destruct m as [x|e]; unfold mbind, Res_bind; split.
  - eauto.
  - by intros (x' & [= <-] & Hk).
  - done.
  - by intros (x' & [=] & _).
Qed.

(** Taking apart a hypothesis that a sequence of calls returned. *)
Ltac inv_Ok :=
  repeat match goal with
  | H : _ ≫= _ = Ok _ |- _ =>
      apply Res_bind_Ok in H as (? & ? & H)
  | H : Ok _ = Ok _ |- _ => injection H as <-
  end.

Lemma bind_positional_names params args slots :
  bind_positional params args = Ok slots → slots.*1 = params.
Proof.
  revert args slots.
  induction params as [|p params IH]; intros [|v args] slots; simpl;
    intros Hb; inv_Ok; simpl; try done.
  - f_equal. clear. induction params as [|q params IH]; simpl; [done|].
    by f_equal.
  - f_equal. eauto.
Qed.

Lemma bind_keyword_names slots k v slots' :
  bind_keyword slots k v = Ok slots' → slots'.*1 = slots.*1.
Proof.
  revert slots'.
  induction slots as [|[p bound] slots IH]; intros slots'; simpl; [done|].
  case_decide; [destruct bound|]; intros Hb; inv_Ok; simpl; try done.
  f_equal. eauto.
Qed.

Lemma bind_keywords_names kwargs slots slots' :
  bind_keywords slots kwargs = Ok slots' → slots'.*1 = slots.*1.
Proof.
  revert slots.
  induction kwargs as [|[k v] kwargs IH]; intros slots; simpl;
    intros Hb; inv_Ok; [done|].
  rewrite (IH _ Hb). eauto using bind_keyword_names.
Qed.

Lemma fill_defaults_names slots bound :
  fill_defaults slots = Ok bound → bound.*1 = name <$> slots.*1.
Proof.
  revert bound.
  induction slots as [|[p b] slots IH]; intros bound; simpl;
    intros Hb; inv_Ok; simpl; [done|].
  f_equal. eauto.
Qed.

(** A call that binds gives every parameter of the function a value. *)
Lemma bind_arguments_names params args kwargs bound :
  bind_arguments params args kwargs = Ok bound → bound.*1 = name <$> params.
Proof.
  unfold bind_arguments. intros Hb. inv_Ok.
  apply fill_defaults_names in Hb as ->.
  erewrite bind_keywords_names by eassumption.
  by erewrite bind_positional_names by eassumption.
Qed.

(** Once its own parameters are bound, [Gripp3r.__init__] fails in the
    call of [super().__init__]. *)
Lemma Gripp3r__init__raises args kwargs bound :
  bind_arguments gripp3r.Gripp3r__init__params args kwargs = Ok bound →
  gripp3r.Gripp3r__init__ args kwargs
    = Raise (TypeError (MultipleValues "wheel_diameter")).
Proof.
  intros Hbound. unfold gripp3r.Gripp3r__init__.
  rewrite Hbound. apply bind_arguments_names in Hbound.
  destruct bound as [|[n1 v1] [|[n2 v2] [|[n3 v3] [|[n4 v4] [|[n5 v5] [|]]]]]];
    try done.
  injection Hbound as -> -> -> -> ->. reflexivity.
Qed.

(** C8: [Gripp3r(...)] raises a [TypeError] whatever the arguments.
    When the arguments fit the parameters of [Gripp3r.__init__], the
    error is that of [RemoteControlledTank.__init__] given two values
    for [wheel_diameter]: [self], passed after the instance the bound
    method already supplies, and the keyword argument.  The program
    therefore ends with this error before its loop runs a single round:
    no driving base receives a call. *)
Theorem Gripp3r_never_constructed args kwargs :
  (∃ why, gripp3r.new args kwargs = Raise (TypeError why)) ∧
  (∀ bound,
     bind_arguments gripp3r.Gripp3r__init__params (VInstance :: args) kwargs
       = Ok bound →
     gripp3r.new args kwargs
       = Raise (TypeError (MultipleValues "wheel_diameter"))) ∧
  (∀ fuel hardware,
     gripp3r.program fuel hardware
       = (Raise (TypeError (MultipleValues "wheel_diameter")), [])).
Proof.
  split; [|split].
  - unfold gripp3r.new, bound_method.
    destruct (bind_arguments gripp3r.Gripp3r__init__params (VInstance :: args) kwargs)
      as [bound|[why]] eqn:E.
    + rewrite (Gripp3r__init__raises _ _ _ E). eauto.
    + unfold gripp3r.Gripp3r__init__. rewrite E. simpl. eauto.
  - intros bound E. unfold gripp3r.new, bound_method.
    by apply (Gripp3r__init__raises _ _ bound).
  - intros fuel hardware. reflexivity.
Qed.

Lemma Gripp3r_never_constructed_witness :
  gripp3r.new [] [("ir_beacon_channel", VInt 2)]
    = Raise (TypeError (MultipleValues "wheel_diameter")).
Proof.
  refine (proj1 (proj2 (Gripp3r_never_constructed [] [("ir_beacon_channel", VInt 2)]))
            [("self", VInstance); ("left_track_motor_port", VPort B);
             ("right_track_motor_port", VPort C); ("ir_sensor_port", VPort S4);
             ("ir_beacon_channel", VInt 2)] _).
  reflexivity.
Defined.

(** * More of the two programs *)

(** ** The bazooka *)

Lemma blast_run (m : Machine ev3rstorm.Ev3rstorm) :
  ev3rstorm.blast_bazooka_if_touched m =
  (Ok tt,
   if touch m (touch_polls m) (touch_port (ev3rstorm.touch_sensor (self (driving m))))
   then
     mkMachine (driving m) (touch m) (S (touch_polls m))
       (ambient m) (S (ambient_polls m))
       (performed m ++
          volley (ev3rstorm.bazooka_blast_motor (self (driving m)))
            (ambient m (ambient_polls m)
               (color_port (ev3rstorm.color_sensor (self (driving m))))))
   else
     mkMachine (driving m) (touch m) (S (touch_polls m))
       (ambient m) (ambient_polls m) (performed m)).
Proof.
  unfold ev3rstorm.blast_bazooka_if_touched, volley.
  unfold mbind, Run_bind, lift, getattr, TouchSensor_pressed, ColorSensor_ambient,
    Speaker_play_file, Motor_run_angle, perform; cbn.
  destruct (touch m _ _); [|reflexivity]. cbn.
  case_decide; cbn; rewrite <- !app_assoc; reflexivity.
Qed.

Lemma lift_drive_run (m : Machine ev3rstorm.Ev3rstorm) (speed turn_rate : Z) :
  lift (ev3rstorm.drive_by_ir_beacon speed turn_rate) m =
  (Ok tt,
   mkMachine
     (after (driving m) (ev3rstorm.driver (ev3rstorm.mixin (self (driving m))))
        (first_match (mapping_table speed turn_rate) (ev3rstorm_pressed (driving m))))
     (touch m) (touch_polls m) (ambient m) (ambient_polls m) (performed m)).
Proof. unfold lift. by rewrite ev3rstorm_run. Qed.

(** ** The loops *)

Lemma beacon_calls_S {Self} (sensor : Self → InfraredSensor) (channel : Self → Z)
    (driver : Self → DriveBase) speed turn_rate (w : World Self) (n : nat) :
  beacon_calls sensor channel driver speed turn_rate w (S n) =
  (driver (self w),
   first_match (mapping_table speed turn_rate) (pressed_next sensor channel w))
  :: beacon_calls sensor channel driver speed turn_rate
       (after w (driver (self w))
          (first_match (mapping_table speed turn_rate) (pressed_next sensor channel w)))
       n.
Proof. reflexivity. Qed.

Lemma main_loop_S (n : nat) (m : Machine ev3rstorm.Ev3rstorm) :
  ev3rstorm.main_loop (S n) m =
  ev3rstorm.main_loop n
    (ev3rstorm.blast_bazooka_if_touched
       (lift (ev3rstorm.drive_by_ir_beacon 100 90) m).2).2.
Proof.
  cbn [ev3rstorm.main_loop]. unfold mbind, Run_bind.
  rewrite lift_drive_run. cbn [snd]. cbv beta iota.
  rewrite blast_run. reflexivity.
Qed.

(** The machine after [n] rounds of Ev3rstorm's loop. *)
Lemma ev3rstorm_main_loop_run (n : nat) (m : Machine ev3rstorm.Ev3rstorm) :
  let w := driving m in
  let o := self w in
  let touched :=
    (λ k, touch m k (touch_port (ev3rstorm.touch_sensor o)))
      <$> seq (touch_polls m) n in
  let light := λ k, ambient m k (color_port (ev3rstorm.color_sensor o)) in
  let m' := (ev3rstorm.main_loop n m).2 in
  (ev3rstorm.main_loop n m).1 = Ok tt ∧
  self (driving m') = o ∧
  beacon (driving m') = beacon w ∧
  polls (driving m') = (polls w + n)%nat ∧
  issued (driving m') =
    issued w ++
    beacon_calls (ev3rstorm.ir_sensor ∘ ev3rstorm.mixin)
      (ev3rstorm.ir_beacon_channel ∘ ev3rstorm.mixin)
      (ev3rstorm.driver ∘ ev3rstorm.mixin) 100 90 w n ∧
  touch m' = touch m ∧
  touch_polls m' = (touch_polls m + n)%nat ∧
  ambient m' = ambient m ∧
  ambient_polls m' = (ambient_polls m + length (filter Is_true touched))%nat ∧
  performed m' =
    performed m ++
    volleys (ev3rstorm.bazooka_blast_motor o) touched light (ambient_polls m).
Proof.
  revert m. induction n as [|n IH]; intros m; cbv zeta.
  - simpl. rewrite !app_nil_r. repeat split; lia.
  - rewrite main_loop_S, lift_drive_run, blast_run, beacon_calls_S.
    unfold ev3rstorm_pressed. cbn [snd].
    generalize (first_match (mapping_table 100 90)
                  (pressed_next (ev3rstorm.ir_sensor ∘ ev3rstorm.mixin)
                     (ev3rstorm.ir_beacon_channel ∘ ev3rstorm.mixin) (driving m))).
    intros call.
    destruct (touch m (touch_polls m)
                (touch_port (ev3rstorm.touch_sensor (self (driving m))))) eqn:Htouch;
      match goal with |- context [ev3rstorm.main_loop n ?m1] =>
        destruct (IH m1) as (-> & -> & -> & -> & -> & -> & -> & -> & -> & ->)
      end;
      cbn; rewrite Htouch; cbn; rewrite <- !app_assoc; cbn.
    + rewrite (decide_True (P := True)) by done. cbn.
      repeat split; first [lia | rewrite Nat.add_succ_r; reflexivity].
    + rewrite (decide_False (P := False)) by tauto.
      repeat split; first [lia | reflexivity].
Qed.

(** ** X1 to X4: one call of [blast_bazooka_if_touched] *)

Section Bazooka.
Implicit Types (m : Machine ev3rstorm.Ev3rstorm).

Local Abbreviation touched m :=
  (touch m (touch_polls m) (touch_port (ev3rstorm.touch_sensor (self (driving m))))).
Local Abbreviation light m :=
  (ambient m (ambient_polls m) (color_port (ev3rstorm.color_sensor (self (driving m))))).
Local Abbreviation bazooka m :=
  (ev3rstorm.bazooka_blast_motor (self (driving m))).

(** X1: while the touch sensor is not pressed, the method only polls
    it: no sound, no turn of the motor, and the colour sensor is not
    read. *)
Theorem blast_waits_for_touch m :
  touched m = false →
  ev3rstorm.blast_bazooka_if_touched m =
  (Ok tt, mkMachine (driving m) (touch m) (S (touch_polls m))
            (ambient m) (ambient_polls m) (performed m)).
Proof. intros Hno. by rewrite blast_run, Hno. Qed.

(** X2: touched in ambient light below 15, Ev3rstorm plays [UP], turns
    the bazooka motor three rotations backwards (-1080 degrees at 2160
    degrees a second, held, waited for) and plays [LAUGHING_1], in this
    order, after one poll of each sensor. *)
Theorem blast_in_the_dark m :
  touched m = true →
  light m < 15 →
  ev3rstorm.blast_bazooka_if_touched m =
  (Ok tt, mkMachine (driving m) (touch m) (S (touch_polls m))
            (ambient m) (S (ambient_polls m))
            (performed m ++
               [ play_file UP;
                 run_angle (bazooka m) 2160 (-1080) HOLD true;
                 play_file LAUGHING_1 ])).
Proof.
  intros Hyes Hdark. rewrite blast_run, Hyes.
  unfold volley. by rewrite decide_True.
Qed.

(** X3: touched in ambient light of 15 or more, Ev3rstorm plays [DOWN],
    turns the bazooka motor three rotations forwards (1080 degrees at
    2160 degrees a second, held, waited for) and plays [LAUGHING_2], in
    this order, after one poll of each sensor. *)
Theorem blast_in_the_light m :
  touched m = true →
  15 ≤ light m →
  ev3rstorm.blast_bazooka_if_touched m =
  (Ok tt, mkMachine (driving m) (touch m) (S (touch_polls m))
            (ambient m) (S (ambient_polls m))
            (performed m ++
               [ play_file DOWN;
                 run_angle (bazooka m) 2160 1080 HOLD true;
                 play_file LAUGHING_2 ])).
Proof.
  intros Hyes Hlight. rewrite blast_run, Hyes.
  unfold volley. rewrite decide_False by lia. done.
Qed.

(** X4: the two methods of Ev3rstorm keep to their own devices.  The
    bazooka method ends normally, sends nothing to a driving base, does
    not poll the beacon and leaves the object as it is; the driving
    method ends normally, performs no sound, image or motor turn and
    polls neither the touch sensor nor the colour sensor. *)
Theorem methods_keep_apart m speed turn_rate :
  ((ev3rstorm.blast_bazooka_if_touched m).1 = Ok tt ∧
   driving (ev3rstorm.blast_bazooka_if_touched m).2 = driving m) ∧
  ((lift (ev3rstorm.drive_by_ir_beacon speed turn_rate) m).1 = Ok tt ∧
   performed (lift (ev3rstorm.drive_by_ir_beacon speed turn_rate) m).2 = performed m ∧
   touch_polls (lift (ev3rstorm.drive_by_ir_beacon speed turn_rate) m).2 = touch_polls m ∧
   ambient_polls (lift (ev3rstorm.drive_by_ir_beacon speed turn_rate) m).2
     = ambient_polls m).
Proof.
  rewrite blast_run, lift_drive_run. cbn [fst snd].
  split; [|done]. split; [done|]. by destruct (touched m).
Qed.
End Bazooka.

Lemma blast_waits_for_touch_witness :
  ev3rstorm.blast_bazooka_if_touched (STAGE false 3) =
  (Ok tt, mkMachine (mkWorld EV3RSTORM (held []) 0 [])
            (λ _ _, false) 1 (λ _ _, 3) 0 []).
Proof. refine (blast_waits_for_touch (STAGE false 3) _). reflexivity. Defined.

Lemma blast_in_the_dark_witness :
  ev3rstorm.blast_bazooka_if_touched (STAGE true 14) =
  (Ok tt, mkMachine (mkWorld EV3RSTORM (held []) 0 [])
            (λ _ _, true) 1 (λ _ _, 14) 1
            [ play_file UP;
              run_angle (mkMotor A CLOCKWISE) 2160 (-1080) HOLD true;
              play_file LAUGHING_1 ]).
Proof.
  refine (blast_in_the_dark (STAGE true 14) _ _); [reflexivity|].
  simpl. lia.
Defined.

Lemma blast_in_the_light_witness :
  ev3rstorm.blast_bazooka_if_touched (STAGE true 15) =
  (Ok tt, mkMachine (mkWorld EV3RSTORM (held []) 0 [])
            (λ _ _, true) 1 (λ _ _, 15) 1
            [ play_file DOWN;
              run_angle (mkMotor A CLOCKWISE) 2160 1080 HOLD true;
              play_file LAUGHING_2 ]).
Proof.
  refine (blast_in_the_light (STAGE true 15) _ _); [reflexivity|].
  simpl. lia.
Defined.

(** ** X5 to X10: the loops and the program of Ev3rstorm *)

Lemma gripp3r_main_run (n : nat) (w : World gripp3r.RemoteControlledTank) :
  gripp3r.main n w =
  (Ok tt,
   mkWorld (self w) (beacon w) (polls w + n)
     (issued w ++
      beacon_calls gripp3r.ir_sensor gripp3r.ir_beacon_channel gripp3r.driver
        300 90 w n)).
Proof.
  revert w. induction n as [|n IH]; intros w.
  - simpl. rewrite app_nil_r, Nat.add_0_r. by destruct w.
  - cbn [gripp3r.main]. unfold mbind, Py_bind.
    rewrite gripp3r_run, IH, beacon_calls_S. unfold gripp3r_pressed.
    cbn [after self beacon polls issued].
    rewrite <- app_assoc, Nat.add_succ_r. reflexivity.
Qed.

Lemma ev3rstorm_main_unfold (n : nat) (m : Machine ev3rstorm.Ev3rstorm) :
  ev3rstorm.main n m =
  ev3rstorm.main_loop n
    (mkMachine (driving m) (touch m) (touch_polls m) (ambient m) (ambient_polls m)
       (performed m ++ [load_image TARGET])).
Proof. reflexivity. Qed.

Lemma first_match_within speed turn_rate (pressed : gset Button) :
  within speed turn_rate (first_match (mapping_table speed turn_rate) pressed).
Proof.
  button_cases pressed; table_eval; simpl; lia.
Qed.

Lemma beacon_calls_within {Self} (sensor : Self → InfraredSensor)
    (channel : Self → Z) (driver : Self → DriveBase) speed turn_rate
    (w : World Self) (n : nat) :
  length (beacon_calls sensor channel driver speed turn_rate w n) = n ∧
  Forall (λ dc, dc.1 = driver (self w) ∧ within speed turn_rate dc.2)
         (beacon_calls sensor channel driver speed turn_rate w n).
Proof.
  unfold beacon_calls. split.
  - by rewrite length_fmap, length_seq.
  - apply Forall_fmap, Forall_forall. intros k _. simpl.
    split; [done|]. apply first_match_within.
Qed.

Lemma volley_three_turns motor light_now :
  length (volley motor light_now) = 3%nat ∧
  Forall (three_turns motor) (volley motor light_now).
Proof.
  unfold volley. case_decide; (split; [done|]);
    repeat constructor; simpl; lia.
Qed.

Lemma volleys_three_turns motor touched light k :
  length (volleys motor touched light k) = (3 * length (filter Is_true touched))%nat ∧
  Forall (three_turns motor) (volleys motor touched light k).
Proof.
  revert k. induction touched as [|[] touched IH]; intros k; cbn [volleys].
  - by split.
  - destruct (IH (S k)) as [Hlen Hall].
    destruct (volley_three_turns motor (light k)) as [Hlen1 Hall1].
    rewrite filter_cons_True by done. cbn [length].
    rewrite length_app, Hlen, Hlen1. split; [lia|]. by apply Forall_app.
  - rewrite filter_cons_False by tauto. apply IH.
Qed.

Section Loops.
Implicit Types (m : Machine ev3rstorm.Ev3rstorm)
               (w : World gripp3r.RemoteControlledTank).

Local Abbreviation touch_readings m n :=
  ((λ k, touch m k (touch_port (ev3rstorm.touch_sensor (self (driving m)))))
     <$> seq (touch_polls m) n).
Local Abbreviation light_readings m :=
  (λ k, ambient m k (color_port (ev3rstorm.color_sensor (self (driving m))))).
Local Abbreviation bazooka m :=
  (ev3rstorm.bazooka_blast_motor (self (driving m))).

(** X5: [n] rounds of Ev3rstorm's [main] end normally and send its
    driving base exactly [n] calls, one for each poll of the beacon, in
    order, each the decision of the table at speed 100 and turn rate 90
    for the buttons held at that poll; the object is left as it is. *)
Theorem Ev3rstorm_main_drives n m :
  (ev3rstorm.main n m).1 = Ok tt ∧
  self (driving (ev3rstorm.main n m).2) = self (driving m) ∧
  polls (driving (ev3rstorm.main n m).2) = (polls (driving m) + n)%nat ∧
  issued (driving (ev3rstorm.main n m).2) =
    issued (driving m) ++
    beacon_calls (ev3rstorm.ir_sensor ∘ ev3rstorm.mixin)
      (ev3rstorm.ir_beacon_channel ∘ ev3rstorm.mixin)
      (ev3rstorm.driver ∘ ev3rstorm.mixin) 100 90 (driving m) n.
Proof.
  rewrite ev3rstorm_main_unfold.
  match goal with |- context [ev3rstorm.main_loop n ?m1] =>
    destruct (ev3rstorm_main_loop_run n m1) as (-> & -> & _ & -> & -> & _)
  end.
  done.
Qed.

(** X6: [n] rounds of Ev3rstorm's [main] first show the image
    [TARGET] and then shoot once for each round in which the touch
    sensor is pressed, and do nothing else with the speaker, the screen
    and the bazooka motor.  The touch sensor is polled once a round,
    the colour sensor once a shot, and each shot takes its direction
    and sounds from that reading. *)
Theorem Ev3rstorm_main_shoots n m :
  performed (ev3rstorm.main n m).2 =
    performed m ++
    load_image TARGET ::
    volleys (bazooka m) (touch_readings m n) (light_readings m) (ambient_polls m) ∧
  touch_polls (ev3rstorm.main n m).2 = (touch_polls m + n)%nat ∧
  ambient_polls (ev3rstorm.main n m).2 =
    (ambient_polls m + length (filter Is_true (touch_readings m n)))%nat.
Proof.
  rewrite ev3rstorm_main_unfold.
  match goal with |- context [ev3rstorm.main_loop n ?m1] =>
    destruct (ev3rstorm_main_loop_run n m1)
      as (_ & _ & _ & _ & _ & _ & -> & _ & -> & ->)
  end.
  cbn. by rewrite <- app_assoc.
Qed.

(** X7: whatever the sensors report, every turn of a motor that [n]
    rounds of Ev3rstorm's loop ask for is a turn of the bazooka motor of
    three full rotations, either way, at the speed that takes half a
    second, held and waited for; the loop shows no image; and it asks
    for three things (a sound, the turn, a sound) for each poll of the
    colour sensor. *)
Theorem Ev3rstorm_loop_three_turns n m :
  ∃ asked,
    performed (ev3rstorm.main_loop n m).2 = performed m ++ asked ∧
    Forall (three_turns (bazooka m)) asked ∧
    length asked =
      (3 * (ambient_polls (ev3rstorm.main_loop n m).2 - ambient_polls m))%nat.
Proof.
  destruct (ev3rstorm_main_loop_run n m)
    as (_ & _ & _ & _ & _ & _ & _ & _ & -> & ->).
  eexists. split; [reflexivity|].
  destruct (volleys_three_turns (bazooka m) (touch_readings m n)
              (light_readings m) (ambient_polls m)) as [Hlen Hall].
  split; [done|]. rewrite Hlen. lia.
Qed.

(** X8: [n] rounds of Gripp3r's [main], on a tank that exists, end
    normally and send its driving base exactly [n] calls, one for each
    poll of the beacon, in order, each the decision of the table at
    speed 300 and turn rate 90 for the buttons held at that poll;
    nothing else changes. *)
Theorem Gripp3r_main_drives n w :
  gripp3r.main n w =
  (Ok tt,
   mkWorld (self w) (beacon w) (polls w + n)
     (issued w ++
      beacon_calls gripp3r.ir_sensor gripp3r.ir_beacon_channel gripp3r.driver
        300 90 w n)).
Proof. apply gripp3r_main_run. Qed.

(** X9: the loops keep to their speeds.  Every call [n] rounds send
    goes to the driving base of the object and is a [stop] or a [drive]
    of at most 100 in linear speed and 90 in turn rate for Ev3rstorm,
    and of at most 300 and 90 for Gripp3r. *)
Theorem loops_keep_speed_limits n m w :
  (∃ calls,
     issued (driving (ev3rstorm.main n m).2) = issued (driving m) ++ calls ∧
     length calls = n ∧
     Forall (λ dc, dc.1 = ev3rstorm.driver (ev3rstorm.mixin (self (driving m))) ∧
                   within 100 90 dc.2) calls) ∧
  (∃ calls,
     issued (gripp3r.main n w).2 = issued w ++ calls ∧
     length calls = n ∧
     Forall (λ dc, dc.1 = gripp3r.driver (self w) ∧ within 300 90 dc.2) calls).
Proof.
  split.
  - rewrite ev3rstorm_main_unfold.
    match goal with |- context [ev3rstorm.main_loop n ?m1] =>
      destruct (ev3rstorm_main_loop_run n m1) as (_ & _ & _ & _ & -> & _)
    end.
    eexists. split; [reflexivity|]. cbn [driving].
    apply (beacon_calls_within (ev3rstorm.ir_sensor ∘ ev3rstorm.mixin)
             (ev3rstorm.ir_beacon_channel ∘ ev3rstorm.mixin)
             (ev3rstorm.driver ∘ ev3rstorm.mixin)).
  - rewrite gripp3r_main_run. eexists. split; [reflexivity|].
    apply (beacon_calls_within gripp3r.ir_sensor gripp3r.ir_beacon_channel
             gripp3r.driver).
Qed.
End Loops.

(** X10: unlike Gripp3r's, the program of Ev3rstorm starts.  On any
    hardware, run for [fuel] rounds, it builds the robot on its default
    ports and ends normally; the driving base on motors B and C gets one
    call a round, decided by the table at speed 100 and turn rate 90
    from what the sensor on port S4 reports for channel 1; the screen
    shows [TARGET], and the bazooka motor on port A shoots once for
    each round in which the touch sensor on port S1 is pressed, by the
    light the colour sensor on port S3 reports. *)
Theorem Ev3rstorm_program_runs fuel remote touch_now ambient_now :
  ev3rstorm.program fuel remote touch_now ambient_now =
  (Ok tt,
   (λ k, (WHEELS,
          first_match (mapping_table 100 90) (list_to_set (remote k S4 1))))
     <$> seq 0 fuel,
   load_image TARGET ::
   volleys (mkMotor A CLOCKWISE)
     ((λ k, touch_now k S1) <$> seq 0 fuel) (λ k, ambient_now k S3) 0).
Proof.
  unfold ev3rstorm.program. rewrite Ev3rstorm_new.
  rewrite ev3rstorm_main_unfold.
  match goal with |- context [ev3rstorm.main_loop fuel ?m1] =>
    pose proof (ev3rstorm_main_loop_run fuel m1) as Hrun;
    destruct (ev3rstorm.main_loop fuel m1) as [r m']
  end.
  cbv zeta in Hrun. cbn [fst snd] in Hrun.
  destruct Hrun as (-> & _ & _ & _ & -> & _ & _ & _ & _ & ->).
  reflexivity.
Qed.

(** ** X11 to X16: the constructors *)

Lemma bind_positional_too_many params args :
  (length params < length args)%nat →
  bind_positional params args = Raise (TypeError TooManyPositional).
Proof.
  revert args. induction params as [|p params IH]; intros [|v args]; simpl;
    intros Hlen; try lia; [done|].
  rewrite IH by lia. reflexivity.
Qed.

Lemma bind_keyword_known slots k v slots' :
  bind_keyword slots k v = Ok slots' → k ∈ name <$> slots.*1.
Proof.
  revert slots'.
  induction slots as [|[p bound] slots IH]; intros slots'; simpl; [done|].
  case_decide as Hname.
  - intros _. rewrite <- Hname. apply elem_of_cons. by left.
  - intros Hb. inv_Ok. apply elem_of_cons. right. eauto.
Qed.

Lemma bind_keywords_known kwargs slots slots' k :
  bind_keywords slots kwargs = Ok slots' →
  k ∈ kwargs.*1 → k ∈ name <$> slots.*1.
Proof.
  revert slots.
  induction kwargs as [|[k' v] kwargs IH]; intros slots; simpl; intros Hb Hin.
  - by apply elem_of_nil in Hin.
  - inv_Ok. apply elem_of_cons in Hin as [->|Hin].
    + eauto using bind_keyword_known.
    + erewrite <- bind_keyword_names by eassumption. eauto.
Qed.

Lemma bind_arguments_known params args kwargs bound k :
  bind_arguments params args kwargs = Ok bound →
  k ∈ kwargs.*1 → k ∈ name <$> params.
Proof.
  unfold bind_arguments. intros Hb Hin. inv_Ok.
  match goal with
  | H : bind_positional _ _ = Ok ?s |- _ =>
      replace params with s.*1 by (by apply bind_positional_names in H)
  end.
  eauto using bind_keywords_known.
Qed.

Lemma bind_keyword_unmentioned slots k v slots' p :
  bind_keyword slots k v = Ok slots' →
  name p ≠ k → (p, None) ∈ slots → (p, None) ∈ slots'.
Proof.
  revert slots'.
  induction slots as [|[q bound] slots IH]; intros slots'; simpl;
    intros Hb Hne Hin; [by apply elem_of_nil in Hin|].
  case_decide as Hname.
  - destruct bound; [done|]. inv_Ok.
    apply elem_of_cons in Hin as [[= -> ]|Hin]; [done|].
    apply elem_of_cons. by right.
  - inv_Ok. apply elem_of_cons in Hin as [Heq|Hin].
    + rewrite Heq. apply elem_of_cons. by left.
    + apply elem_of_cons. right. eauto.
Qed.

Lemma bind_keywords_unmentioned kwargs slots slots' p :
  bind_keywords slots kwargs = Ok slots' →
  name p ∉ kwargs.*1 → (p, None) ∈ slots → (p, None) ∈ slots'.
Proof.
  revert slots.
  induction kwargs as [|[k v] kwargs IH]; intros slots; simpl;
    intros Hb Hout Hin; inv_Ok; [done|].
  apply not_elem_of_cons in Hout as [Hne Hout].
  eauto using bind_keyword_unmentioned.
Qed.

Lemma fill_defaults_unbound slots bound p :
  fill_defaults slots = Ok bound → (p, None) ∈ slots → default p ≠ None.
Proof.
  revert bound.
  induction slots as [|[q b] slots IH]; intros bound; simpl; intros Hb Hin;
    [by apply elem_of_nil in Hin|].
  inv_Ok. apply elem_of_cons in Hin as [[= <- <-]|Hin]; [|eauto].
  by destruct (default p).
Qed.

(** X11: given the instance once, [RemoteControlledTank.__init__]
    takes the keywords [Gripp3r.__init__] passes and builds the tank:
    both motors clockwise on the given ports, the wheels as given, the
    sensor and the channel as given, and ports B, C, S4 and channel 1
    when they are left out.  The second [self] is all that makes the
    call of [Gripp3r.__init__] fail. *)
Theorem tank_init_with_one_self wheel axle left right sensor channel :
  gripp3r.RemoteControlledTank__init__
    [ VInstance ]
    [ ("wheel_diameter", VInt wheel); ("axle_track", VInt axle);
      ("left_motor_port", VPort left); ("right_motor_port", VPort right);
      ("ir_sensor_port", VPort sensor); ("ir_beacon_channel", VInt channel) ]
  = Ok (gripp3r.mkRemoteControlledTank
          (mkDriveBase (mkMotor left CLOCKWISE) (mkMotor right CLOCKWISE) wheel axle)
          (mkInfraredSensor sensor) channel) ∧
  gripp3r.RemoteControlledTank__init__
    [ VInstance ]
    [ ("wheel_diameter", VInt wheel); ("axle_track", VInt axle) ]
  = Ok (gripp3r.mkRemoteControlledTank
          (mkDriveBase (mkMotor B CLOCKWISE) (mkMotor C CLOCKWISE) wheel axle)
          (mkInfraredSensor S4) 1).
Proof. split; reflexivity. Qed.

(** X12: the two base classes are built alike: for every call,
    [IRBeaconDriverMixin.__init__] and [RemoteControlledTank.__init__]
    raise the same error or set the same three attributes. *)
Theorem mixin_inits_agree args kwargs :
  match ev3rstorm.IRBeaconDriverMixin__init__ args kwargs with
  | Ok m => Ok (as_tank m)
  | Raise e => Raise e
  end = gripp3r.RemoteControlledTank__init__ args kwargs.
Proof.
  unfold ev3rstorm.IRBeaconDriverMixin__init__, gripp3r.RemoteControlledTank__init__.
  unfold mbind, Res_bind.
  repeat match goal with
  | |- context [match ?x with Ok _ => _ | Raise _ => _ end] =>
      lazymatch x with
      | bind_arguments _ _ _ => destruct x
      | int_argument _ _ => destruct x
      | port_argument _ _ => destruct x
      end
  end; reflexivity.
Qed.


(** X14: [Ev3rstorm(...)] takes at most seven positional arguments;
    with more it raises a [TypeError], whatever the keywords. *)
Theorem Ev3rstorm_new_too_many args kwargs :
  (7 < length args)%nat →
  ev3rstorm.new args kwargs = Raise (TypeError TooManyPositional).
Proof.
  intros Hlen. unfold ev3rstorm.new, bound_method, ev3rstorm.Ev3rstorm__init__.
  unfold bind_arguments. rewrite bind_positional_too_many; [done|].
  simpl. lia.
Qed.

(** X15: [Ev3rstorm(...)] never builds a robot from a call with a
    keyword that is not one of its parameters. *)
Theorem Ev3rstorm_new_unknown_keyword args kwargs k robot :
  k ∈ kwargs.*1 →
  k ∉ Ev3rstorm__init__names →
  ev3rstorm.new args kwargs ≠ Ok robot.
Proof.
  intros Hin Hout Hnew. destruct Hout.
  unfold ev3rstorm.new, bound_method, ev3rstorm.Ev3rstorm__init__ in Hnew.
  apply Res_bind_Ok in Hnew as (bound & Hbound & _).
  by apply (bind_arguments_known _ _ _ _ k) in Hbound.
Qed.

(** X16: [RemoteControlledTank.__init__] needs its wheels: called with
    the instance alone by position and without [wheel_diameter] or
    without [axle_track] among the keywords, it never builds a tank. *)
Theorem tank_init_needs_wheels kwargs tank :
  "wheel_diameter" ∉ kwargs.*1 ∨ "axle_track" ∉ kwargs.*1 →
  gripp3r.RemoteControlledTank__init__ [VInstance] kwargs ≠ Ok tank.
Proof.
  intros Hout Hinit. unfold gripp3r.RemoteControlledTank__init__ in Hinit.
  apply Res_bind_Ok in Hinit as (bound & Hbound & _).
  unfold bind_arguments in Hbound. simpl in Hbound.
  apply Res_bind_Ok in Hbound as (slots & Hkeywords & Hfill).
  destruct Hout as [Hout|Hout].
  - apply (bind_keywords_unmentioned _ _ _ (required "wheel_diameter")) in Hkeywords;
      [|done|set_solver].
    by apply (fill_defaults_unbound _ _ _ Hfill) in Hkeywords.
  - apply (bind_keywords_unmentioned _ _ _ (required "axle_track")) in Hkeywords;
      [|done|set_solver].
    by apply (fill_defaults_unbound _ _ _ Hfill) in Hkeywords.
Qed.

Lemma Ev3rstorm_new_too_many_witness :
  ev3rstorm.new
    [ VPort B; VPort C; VPort A; VPort S1; VPort S3; VPort S4; VInt 1; VInt 2 ] []
  = Raise (TypeError TooManyPositional).
Proof.
  refine (Ev3rstorm_new_too_many
            [ VPort B; VPort C; VPort A; VPort S1; VPort S3; VPort S4; VInt 1; VInt 2 ]
            [] _).
  simpl. lia.
Defined.

Lemma Ev3rstorm_new_unknown_keyword_witness :
  ev3rstorm.new [] [("left_track_motor_port", VPort B)] ≠ Ok EV3RSTORM.
Proof.
  refine (Ev3rstorm_new_unknown_keyword
            [] [("left_track_motor_port", VPort B)] "left_track_motor_port"
            EV3RSTORM _ _).
  - apply (bool_decide_unpack _). vm_compute. exact I.
  - apply (bool_decide_unpack _). vm_compute. exact I.
Defined.

Lemma tank_init_needs_wheels_witness :
  gripp3r.RemoteControlledTank__init__ [VInstance] [("axle_track", VInt 102)]
  ≠ Ok TANK.
Proof.
  refine (tank_init_needs_wheels [("axle_track", VInt 102)] TANK _).
  left. apply (bool_decide_unpack _). vm_compute. exact I.
Defined.
